(** * Teams reporter: attempt aggregation, summary card and webhook delivery

    A shallow embedding of [src/reporters/teamsReporter.ts] (class
    [TeamsReporter]) and the properties of its classifier
    ([onTestEnd], [processTestResults], [captureFailedTest]), of the card
    builder ([buildMessageCard], [getOverallStatus], [getThemeColor],
    [truncateError]) and of the delivery loop ([sendWebhookWithRetry],
    [onEnd]).

    Conventions of the embedding:
    - a JavaScript string is the list of its UTF-16 code units, so that
      [length], [substring] and [split] count what the runtime counts;
    - the counters of [testResults] and array lengths are natural numbers
      (the runtime holds them as doubles, exact below 2^53);
    - the one floating-point computation, the pass rate, is carried out on
      binary64 values with the primitive floats of the kernel;
    - console output, HTTP requests and timer waits are recorded as a trace
      of events; an exception that leaves a method is the result [None]. *)

From Stdlib Require Import ZArith NArith List Bool Lia String Ascii Floats.
From Stdlib Require Import Permutation.
Import ListNotations.

Set Implicit Arguments.

(* ================================================================== *)
(** ** The JavaScript runtime values the reporter relies on *)
(* ================================================================== *)

Module Js.

(** One UTF-16 code unit. *)
Definition char16 := N.

(** A string value: its sequence of code units. *)
Definition jsstring := list char16.

(** An ASCII literal of the source as a string value. *)
Definition lit (s : string) : jsstring :=
  map N_of_ascii (list_ascii_of_string s).

Definition eqb (a b : jsstring) : bool :=
  if list_eq_dec N.eq_dec a b then true else false.

(** Truthiness of an optional string: [undefined] and [''] are falsy. *)
Definition truthy (v : option jsstring) : bool :=
  match v with
  | Some (_ :: _) => true
  | _ => false
  end.

(** [v || d] on an optional string. *)
Definition or_else (v : option jsstring) (d : jsstring) : jsstring :=
  match v with
  | Some (c :: s) => c :: s
  | _ => d
  end.

(** [s.substring(start, end)]: both indices are clamped to [0, s.length]
    and swapped when out of order. *)
Definition substring (s : jsstring) (start end_ : Z) : jsstring :=
  let len := Z.of_nat (List.length s) in
  let clamp i := Z.min (Z.max i 0) len in
  let from := Z.min (clamp start) (clamp end_) in
  let to := Z.max (clamp start) (clamp end_) in
  firstn (Z.to_nat (to - from)) (skipn (Z.to_nat from) s).

(** [s.split(sep)] for a separator of one code unit: never empty, the
    empty string splits into one empty piece. *)
Fixpoint split (sep : char16) (s : jsstring) : list jsstring :=
  match s with
  | [] => [[]]
  | c :: s' =>
      if N.eqb c sep then [] :: split sep s'
      else match split sep s' with
           | [] => [[c]]
           | piece :: pieces => (c :: piece) :: pieces
           end
  end.

(** [pieces.join(sep)]. *)
Fixpoint join (sep : jsstring) (pieces : list jsstring) : jsstring :=
  match pieces with
  | [] => []
  | [p] => p
  | p :: rest => p ++ sep ++ join sep rest
  end.

(** [arr.slice(0, n)]. *)
Definition slice0 {A} (n : nat) (arr : list A) : list A := firstn n arr.

Definition newline : char16 := 10%N.

(** Decimal digits, most significant first. *)
Fixpoint digits (d : Decimal.uint) : jsstring :=
  match d with
  | Decimal.Nil => []
  | Decimal.D0 d => 48%N :: digits d
  | Decimal.D1 d => 49%N :: digits d
  | Decimal.D2 d => 50%N :: digits d
  | Decimal.D3 d => 51%N :: digits d
  | Decimal.D4 d => 52%N :: digits d
  | Decimal.D5 d => 53%N :: digits d
  | Decimal.D6 d => 54%N :: digits d
  | Decimal.D7 d => 55%N :: digits d
  | Decimal.D8 d => 56%N :: digits d
  | Decimal.D9 d => 57%N :: digits d
  end.

(** [`${n}`] for a count or a line number: the decimal numeral (the
    runtime switches to exponent notation only from 10^21 on). *)
Definition ofNat (n : nat) : jsstring := digits (Nat.to_uint n).

(** [`${z}`] for an integer. *)
Definition ofZ (z : Z) : jsstring :=
  match z with
  | Zneg p => 45%N :: digits (Pos.to_uint p)
  | _ => digits (N.to_uint (Z.to_N z))
  end.

End Js.

Import Js.

(* ================================================================== *)
(** ** Data of the test runner and of the reporter *)
(* ================================================================== *)

(** [TestResult['status']], the type of [result.status].  It is declared
    by the test runner (package [@playwright/test], imported on the first
    line of the source) as the union
    ['passed' | 'failed' | 'timedOut' | 'skipped' | 'interrupted']; the
    last value is reported for a test that was cut short when the run was
    stopped. *)
Module Status.
Inductive t := passed | failed | timedOut | skipped | interrupted.

Definition eqb (a b : t) : bool :=
  match a, b with
  | passed, passed | failed, failed | timedOut, timedOut
  | skipped, skipped | interrupted, interrupted => true
  | _, _ => false
  end.
End Status.

Module TestError.
Record t := mk { message : option jsstring; stack : option jsstring }.
End TestError.

Module Location.
Record t := mk { file : jsstring; line : nat; column : nat }.
End Location.

Module TestCase.
Record t := mk { id : jsstring; title : jsstring; location : option Location.t }.
End TestCase.

Module TestResult.
Record t := mk { status : Status.t; retry : nat; error : option TestError.t }.
End TestResult.

(** One element of [results]: [{ result, retry }]. *)
Module Attempt.
Record t := mk { result : TestResult.t; retry : nat }.
End Attempt.

(** One value of the [testAttempts] map: [{ test, results }]. *)
Module Attempts.
Record t := mk { test : TestCase.t; results : list Attempt.t }.
End Attempts.

Module FailedTest.
Record t := mk { title : jsstring; error : jsstring; stack : jsstring; location : jsstring }.
End FailedTest.

Module FlakyTest.
Record t := mk { title : jsstring; attempts : nat }.
End FlakyTest.

(** [testResults]. *)
Record Counts := mkCounts {
  passed : nat;
  failed : nat;
  skipped : nat;
  flaky : nat;
  timedout : nat
}.

(** A [Map<string, V>]: the entries in insertion order, each key once. *)
Module JsMap.
Section WithValue.
Variable V : Type.

Definition t := list (jsstring * V).

Fixpoint get (m : t) (k : jsstring) : option V :=
  match m with
  | [] => None
  | (k', v) :: m' => if Js.eqb k' k then Some v else get m' k
  end.

Definition has (m : t) (k : jsstring) : bool :=
  match get m k with Some _ => true | None => false end.

(** [set] keeps the position of a key already present and appends a new
    key at the end. *)
Fixpoint set (m : t) (k : jsstring) (v : V) : t :=
  match m with
  | [] => [(k, v)]
  | (k', v') :: m' =>
      if Js.eqb k' k then (k', v) :: m' else (k', v') :: set m' k v
  end.

Definition size (m : t) : nat := List.length m.

Definition keys (m : t) : list jsstring := map fst m.
End WithValue.
End JsMap.

(** The fields of a [TeamsReporter] instance. *)
Record Reporter := mkReporter {
  webhookUrl : option jsstring;
  startTime : Z;
  projectName : jsstring;
  testResults : Counts;
  failedTests : list FailedTest.t;
  flakyTests : list FlakyTest.t;
  testAttempts : JsMap.t Attempts.t
}.


(* ================================================================== *)
(** ** Numbers: binary64 values and [Number.prototype.toFixed] *)
(* ================================================================== *)

Module JsNumber.

(** The Number value of an integer (round to nearest, ties to even). *)
Definition ofZ (z : Z) : float :=
  SF2Prim (binary_normalize prec emax z 0 false).

Definition ofNat (n : nat) : float := ofZ (Z.of_nat n).

(** Does the integer [v] denote the double [x]? *)
Definition denotes (x : float) (v : Z) : bool := PrimFloat.eqb (ofZ v) x.

(** The pairs [(s, n)] of [Number::toString] with [k] digits: [s] has [k]
    decimal digits and [s * 10^(n-k)] denotes [x], for the integer value
    [X] of [x] with [D] decimal digits. *)
Definition candidates (x : float) (X D k : Z) : list (Z * Z) :=
  flat_map
    (fun n =>
       let p := (10 ^ (n - k))%Z in
       filter
         (fun sn =>
            let s := fst sn in
            (10 ^ (k - 1) <=? s)%Z && (s <? 10 ^ k)%Z && denotes x (s * p))
         [((X / p)%Z, n); ((X / p + 1)%Z, n)])
    [(D - 1)%Z; D; (D + 1)%Z].

(** Of two candidates the one nearer to [X], the even [s] on a tie. *)
Definition nearer (X k : Z) (a b : Z * Z) : Z * Z :=
  let dist sn := Z.abs (fst sn * 10 ^ (snd sn - k) - X) in
  if (dist a <? dist b)%Z then a
  else if (dist b <? dist a)%Z then b
  else if Z.even (fst a) then a else b.

Fixpoint shortest (x : float) (X D : Z) (ks : list Z) : option (Z * Z * Z) :=
  match ks with
  | [] => None
  | k :: ks' =>
      match candidates x X D k with
      | [] => shortest x X D ks'
      | c :: cs =>
          let best := fold_left (nearer X k) cs c in
          Some (fst best, snd best, k)
      end
  end.

(** [Number::toString] of a double whose value is the integer [X >= 10^21]:
    the shortest digits that denote it, in exponent notation. *)
Definition toStringLarge (x : float) (X : Z) : jsstring :=
  let D := Z.of_nat (List.length (Js.ofZ X)) in
  let snk :=
    match shortest x X D (map Z.of_nat (seq 1 17)) with
    | Some r => r
    | None => ((X / 10 ^ (D - 17))%Z, D, 17%Z)
    end in
  let s := fst (fst snk) in
  let n := snd (fst snk) in
  match Js.ofZ s with
  | [] => []
  | d :: [] => d :: lit "e+" ++ Js.ofZ (n - 1)
  | d :: ds => d :: lit "." ++ ds ++ lit "e+" ++ Js.ofZ (n - 1)
  end.

(** [x.toFixed(1)].  For a finite [|x| < 10^21] the digits are those of
    the integer [n] nearest to [10 * |x|], the larger one on a tie; the
    value of [x] is taken exactly, as [m * 2^e]. *)
Definition toFixed1 (x : float) : jsstring :=
  match Prim2SF x with
  | S754_nan => lit "NaN"
  | S754_infinity s => if s then lit "-Infinity" else lit "Infinity"
  | S754_zero _ => lit "0.0"
  | S754_finite s m e =>
      let num := (Zpos m * 2 ^ Z.max e 0)%Z in
      let den := (2 ^ Z.max (- e) 0)%Z in
      let sign := if s then lit "-" else [] in
      if (10 ^ 21 * den <=? num)%Z then
        sign ++ toStringLarge (PrimFloat.abs x) (num / den)
      else
        let n := ((20 * num + den) / (2 * den))%Z in
        sign ++ Js.ofZ (n / 10) ++ lit "." ++ Js.ofZ (n mod 10)
  end.

End JsNumber.


(* ================================================================== *)
(** ** The MessageCard payload *)
(* ================================================================== *)

Module Fact.
Record t := mk { name : jsstring; value : jsstring }.
End Fact.

(** One element of [sections]; a field the object literal does not set is
    [None]. *)
Module CardSection.
Record t := mk {
  activityTitle : option jsstring;
  activitySubtitle : option jsstring;
  facts : option (list Fact.t);
  text : option jsstring;
  markdown : bool
}.
End CardSection.

Module Target.
Record t := mk { os : jsstring; uri : jsstring }.
End Target.

Module Action.
Record t := mk { type : jsstring; name : jsstring; targets : list Target.t }.
End Action.

Module MessageCard.
Record t := mk {
  type : jsstring;
  context : jsstring;
  summary : jsstring;
  themeColor : jsstring;
  sections : list CardSection.t;
  potentialAction : option (list Action.t)
}.
End MessageCard.

(* ================================================================== *)
(** ** The world outside: environment, network, console, timers *)
(* ================================================================== *)

(** [process.env]. *)
Definition Env := jsstring -> option jsstring.

(** Why a request produced no HTTP response. *)
Inductive TransportFailure :=
| Timeout              (* ECONNABORTED: no answer within the timeout *)
| DnsFailure           (* ENOTFOUND *)
| ConnectionRefused    (* ECONNREFUSED *)
| OtherIO.             (* any other failure below HTTP *)

(** What the network does with one POST. *)
Inductive NetOutcome :=
| HttpResponse (status : Z)
| NoResponse (why : TransportFailure).

(** What [await axios.post(...)] throws. *)
Inductive Thrown :=
| BadStatus (status : Z)                 (* rejected by [validateStatus] *)
| Transport (why : TransportFailure).

(** The sites of console output, with the values they print. *)
Inductive LogLine :=
| LogTestEnd (title : jsstring) (status : Status.t)
| LogSkipped
| LogSending (attempt maxRetries : nat)
| LogWebhookUrl (urlPrefix : jsstring)
| LogSent (status : Z)
| LogWebhookFailed (status : Z)
| LogClientError
| LogSendError (attempt maxRetries : nat) (e : Thrown)
| LogWaiting (waitTime : Z)
| LogGaveUp (maxRetries : nat)
| LogProcessing (size : nat).

(** Observable actions, in the order they happen.  [Post a url card] is
    the request of attempt [a]; [Sleep ms] is a [setTimeout] wait. *)
Inductive Event :=
| Log (l : LogLine)
| Post (attempt : nat) (url : jsstring) (card : MessageCard.t)
| Sleep (ms : Z).

(* ================================================================== *)
(** ** Configuration constants *)
(* ================================================================== *)

Definition MAX_FAILED_TESTS_DISPLAY : nat := 10.
Definition MAX_FLAKY_TESTS_DISPLAY : nat := 5.
Definition ERROR_TRUNCATE_LENGTH : Z := 200.
Definition WEBHOOK_TIMEOUT_MS : Z := 30000.
Definition MAX_RETRY_ATTEMPTS : nat := 3.
Definition MAX_BACKOFF_MS : Z := 5000.

(* ================================================================== *)
(** ** Attempt store: the constructor and [onTestEnd] *)
(* ================================================================== *)

(** [new TeamsReporter()]: the endpoint comes from the environment, the
    project name from [getProjectName()] (read off the file system, taken
    here as given). *)
Definition newReporter (env : Env) (name : jsstring) : Reporter :=
  {| webhookUrl := env (lit "TEAMS_WEBHOOK_URL");
     startTime := 0;
     projectName := name;
     testResults := mkCounts 0 0 0 0 0;
     failedTests := [];
     flakyTests := [];
     testAttempts := [] |}.

Definition withAttempts (r : Reporter) (m : JsMap.t Attempts.t) : Reporter :=
  {| webhookUrl := webhookUrl r; startTime := startTime r;
     projectName := projectName r; testResults := testResults r;
     failedTests := failedTests r; flakyTests := flakyTests r;
     testAttempts := m |}.

Definition withCounts (r : Reporter) (c : Counts) : Reporter :=
  {| webhookUrl := webhookUrl r; startTime := startTime r;
     projectName := projectName r; testResults := c;
     failedTests := failedTests r; flakyTests := flakyTests r;
     testAttempts := testAttempts r |}.

Definition pushFailed (r : Reporter) (f : FailedTest.t) : Reporter :=
  {| webhookUrl := webhookUrl r; startTime := startTime r;
     projectName := projectName r; testResults := testResults r;
     failedTests := failedTests r ++ [f]; flakyTests := flakyTests r;
     testAttempts := testAttempts r |}.

Definition pushFlaky (r : Reporter) (f : FlakyTest.t) : Reporter :=
  {| webhookUrl := webhookUrl r; startTime := startTime r;
     projectName := projectName r; testResults := testResults r;
     failedTests := failedTests r; flakyTests := flakyTests r ++ [f];
     testAttempts := testAttempts r |}.

(** [onBegin()], at clock reading [now]. *)
Definition onBegin (r : Reporter) (now : Z) : Reporter :=
  {| webhookUrl := webhookUrl r; startTime := now;
     projectName := projectName r; testResults := testResults r;
     failedTests := failedTests r; flakyTests := flakyTests r;
     testAttempts := testAttempts r |}.

(** [onTestEnd(test, result)]: the entry of [test.id] is created on the
    first attempt and the attempt is pushed onto its [results] array, which
    the map keeps sharing (so the entry stays where it was inserted). *)
Definition onTestEnd (r : Reporter) (test : TestCase.t) (result : TestResult.t)
  : Reporter * list Event :=
  let testId := TestCase.id test in
  let m0 := testAttempts r in
  let m1 :=
    if negb (JsMap.has m0 testId)
    then JsMap.set m0 testId (Attempts.mk test [])
    else m0 in
  let m2 :=
    match JsMap.get m1 testId with
    | Some data =>
        JsMap.set m1 testId
          (Attempts.mk (Attempts.test data)
             (Attempts.results data
                ++ [Attempt.mk result (TestResult.retry result)]))
    | None => m1
    end in
  (withAttempts r m2,
   [Log (LogTestEnd (TestCase.title test) (TestResult.status result))]).

(* ================================================================== *)
(** ** Result classifier: [processTestResults] and [captureFailedTest] *)
(* ================================================================== *)

Definition incPassed (c : Counts) : Counts :=
  mkCounts (S (passed c)) (failed c) (skipped c) (flaky c) (timedout c).
Definition incFailed (c : Counts) : Counts :=
  mkCounts (passed c) (S (failed c)) (skipped c) (flaky c) (timedout c).
Definition incSkipped (c : Counts) : Counts :=
  mkCounts (passed c) (failed c) (S (skipped c)) (flaky c) (timedout c).
Definition incFlaky (c : Counts) : Counts :=
  mkCounts (passed c) (failed c) (skipped c) (S (flaky c)) (timedout c).
Definition incTimedout (c : Counts) : Counts :=
  mkCounts (passed c) (failed c) (skipped c) (flaky c) (S (timedout c)).

(** [result.error?.message] and [result.error?.stack]. *)
Definition errorMessageOf (result : TestResult.t) : option jsstring :=
  match TestResult.error result with
  | Some e => TestError.message e
  | None => None
  end.

Definition errorStackOf (result : TestResult.t) : option jsstring :=
  match TestResult.error result with
  | Some e => TestError.stack e
  | None => None
  end.

Definition captureFailedTest (r : Reporter) (test : TestCase.t)
  (result : TestResult.t) : Reporter :=
  let errorMessage :=
    Js.or_else (errorMessageOf result) (lit "No error message available") in
  let stackTrace := Js.or_else (errorStackOf result) [] in
  let stackLines :=
    Js.join [Js.newline] (Js.slice0 3 (Js.split Js.newline stackTrace)) in
  let location :=
    match TestCase.location test with
    | Some l => Location.file l ++ lit ":" ++ Js.ofNat (Location.line l)
    | None => lit "Unknown location"
    end in
  pushFailed r
    (FailedTest.mk (TestCase.title test) errorMessage stackLines location).

(** [r.result.status === 'failed' || r.result.status === 'timedOut']. *)
Definition isFailure (a : Attempt.t) : bool :=
  match TestResult.status (Attempt.result a) with
  | Status.failed | Status.timedOut => true
  | _ => false
  end.

(** The body of the loop of [processTestResults] for one map entry.
    [results[results.length - 1]] is [undefined] on an empty array, and
    reading [.result] off it throws: the result is [None]. *)
Definition processEntry (r : Reporter) (data : Attempts.t) : option Reporter :=
  let test := Attempts.test data in
  let results := Attempts.results data in
  match nth_error results (List.length results - 1) with
  | None => None
  | Some final =>
      let finalResult := Attempt.result final in
      let hadFailures := existsb isFailure results in
      match TestResult.status finalResult with
      | Status.passed =>
          if hadFailures && (1 <? List.length results)%nat then
            Some (pushFlaky (withCounts r (incFlaky (testResults r)))
                    (FlakyTest.mk (TestCase.title test) (List.length results)))
          else
            Some (withCounts r (incPassed (testResults r)))
      | Status.failed =>
          Some (captureFailedTest (withCounts r (incFailed (testResults r)))
                  test finalResult)
      | Status.skipped =>
          Some (withCounts r (incSkipped (testResults r)))
      | Status.timedOut =>
          Some (captureFailedTest (withCounts r (incTimedout (testResults r)))
                  test finalResult)
      | Status.interrupted =>
          (* no branch of the if-chain compares against this status *)
          Some r
      end
  end.

Fixpoint processEntries (r : Reporter) (entries : JsMap.t Attempts.t)
  : option Reporter :=
  match entries with
  | [] => Some r
  | (_, data) :: rest =>
      match processEntry r data with
      | Some r' => processEntries r' rest
      | None => None
      end
  end.

Definition processTestResults (r : Reporter) : option Reporter * list Event :=
  (processEntries r (testAttempts r),
   [Log (LogProcessing (JsMap.size (testAttempts r)))]).


(* ================================================================== *)
(** ** Payload builder *)
(* ================================================================== *)

Module OverallStatus.
Record t := mk { emoji : jsstring; text : jsstring }.
End OverallStatus.

(** The emoji of the source literals, as UTF-16 code units. *)
Definition emojiCross : jsstring := [10060%N].                (* U+274C *)
Definition emojiWarning : jsstring := [9888%N; 65039%N].      (* U+26A0 U+FE0F *)
Definition emojiCheck : jsstring := [9989%N].                 (* U+2705 *)
Definition emojiChart : jsstring := [55357%N; 56522%N].       (* U+1F4CA *)
Definition emojiNext : jsstring := [9197%N; 65039%N].         (* U+23ED U+FE0F *)
Definition emojiTrend : jsstring := [55357%N; 56520%N].       (* U+1F4C8 *)
Definition emojiWrench : jsstring := [55357%N; 56615%N].      (* U+1F527 *)

Definition getOverallStatus (r : Reporter) : OverallStatus.t :=
  if (0 <? failed (testResults r))%nat || (0 <? timedout (testResults r))%nat
  then OverallStatus.mk emojiCross (lit "FAILED")
  else if (0 <? flaky (testResults r))%nat
  then OverallStatus.mk emojiWarning (lit "UNSTABLE")
  else OverallStatus.mk emojiCheck (lit "PASSED").

Definition getThemeColor (r : Reporter) : jsstring :=
  if (0 <? failed (testResults r))%nat || (0 <? timedout (testResults r))%nat
  then lit "dc3545"
  else if (0 <? flaky (testResults r))%nat
  then lit "ffc107"
  else lit "28a745".

(** Does [s] start with [pat]?  Then the rest of [s]. *)
Fixpoint stripPrefix (pat s : jsstring) : option jsstring :=
  match pat, s with
  | [], _ => Some s
  | _ :: _, [] => None
  | p :: pat', c :: s' => if N.eqb p c then stripPrefix pat' s' else None
  end.

(** [s.replace(pat, rep)] for a string pattern: the first occurrence. *)
Fixpoint replaceFirst (pat rep s : jsstring) : jsstring :=
  match stripPrefix pat s with
  | Some rest => rep ++ rest
  | None =>
      match s with
      | [] => []
      | c :: s' => c :: replaceFirst pat rep s'
      end
  end.

(** [process.env.NAME], and its value where the source has tested it. *)
Definition envVar (env : Env) (name : string) : option jsstring :=
  env (lit name).

Definition envText (env : Env) (name : string) : jsstring :=
  Js.or_else (envVar env name) [].

(** [if (cond) metadata.push(f)]. *)
Definition pushIf (cond : bool) (f : Fact.t) : list Fact.t :=
  if cond then [f] else [].

Definition getCIMetadata (env : Env) : list Fact.t :=
  (if Js.truthy (envVar env "GITHUB_ACTIONS") then
     pushIf (Js.truthy (envVar env "GITHUB_REF"))
       (Fact.mk (lit "Branch:")
          (replaceFirst (lit "refs/heads/") [] (envText env "GITHUB_REF")))
     ++ pushIf (Js.truthy (envVar env "GITHUB_SHA"))
       (Fact.mk (lit "Commit:") (Js.substring (envText env "GITHUB_SHA") 0 7))
     ++ pushIf (Js.truthy (envVar env "GITHUB_RUN_NUMBER"))
       (Fact.mk (lit "Build:") (lit "#" ++ envText env "GITHUB_RUN_NUMBER"))
   else [])
  ++
  (if Js.truthy (envVar env "JENKINS_HOME") then
     pushIf (Js.truthy (envVar env "GIT_BRANCH"))
       (Fact.mk (lit "Branch:") (envText env "GIT_BRANCH"))
     ++ pushIf (Js.truthy (envVar env "GIT_COMMIT"))
       (Fact.mk (lit "Commit:") (Js.substring (envText env "GIT_COMMIT") 0 7))
     ++ pushIf (Js.truthy (envVar env "BUILD_NUMBER"))
       (Fact.mk (lit "Build:") (lit "#" ++ envText env "BUILD_NUMBER"))
   else [])
  ++
  (if Js.truthy (envVar env "GITLAB_CI") then
     pushIf (Js.truthy (envVar env "CI_COMMIT_BRANCH"))
       (Fact.mk (lit "Branch:") (envText env "CI_COMMIT_BRANCH"))
     ++ pushIf (Js.truthy (envVar env "CI_COMMIT_SHORT_SHA"))
       (Fact.mk (lit "Commit:") (envText env "CI_COMMIT_SHORT_SHA"))
     ++ pushIf (Js.truthy (envVar env "CI_PIPELINE_ID"))
       (Fact.mk (lit "Pipeline:") (lit "#" ++ envText env "CI_PIPELINE_ID"))
   else []).

Definition getActionButtons (env : Env) : list Action.t :=
  match env (lit "PLAYWRIGHT_REPORT_URL") with
  | Some (c :: u) =>
      [Action.mk (lit "OpenUri") (emojiChart ++ lit " View Report")
         [Target.mk (lit "default") (c :: u)]]
  | _ => []
  end.

(** [formatDuration(ms)]; [%] is the remainder that takes the sign of the
    dividend. *)
Definition formatDuration (ms : Z) : jsstring :=
  let seconds := (ms / 1000)%Z in
  let minutes := (seconds / 60)%Z in
  let hours := (minutes / 60)%Z in
  if (0 <? hours)%Z then
    Js.ofZ hours ++ lit "h " ++ Js.ofZ (Z.rem minutes 60) ++ lit "m "
      ++ Js.ofZ (Z.rem seconds 60) ++ lit "s"
  else if (0 <? minutes)%Z then
    Js.ofZ minutes ++ lit "m " ++ Js.ofZ (Z.rem seconds 60) ++ lit "s"
  else Js.ofZ seconds ++ lit "s".

Definition truncateError (error : jsstring) (maxLength : Z) : jsstring :=
  if (Z.of_nat (List.length error) <=? maxLength)%Z then error
  else Js.substring error 0 (maxLength - 3) ++ lit "...".

(** [arr.map((x, index) => f(x, index))]. *)
Fixpoint mapi_from {A B} (i : nat) (f : A -> nat -> B) (l : list A) : list B :=
  match l with
  | [] => []
  | x :: l' => f x i :: mapi_from (S i) f l'
  end.

Definition mapi {A B} (f : A -> nat -> B) (l : list A) : list B :=
  mapi_from 0 f l.

(** The expression of [passRate]: a division and a product of doubles,
    then [toFixed(1)]. *)
Definition passRate (c : Counts) (totalTests : nat) : jsstring :=
  if (0 <? totalTests)%nat then
    JsNumber.toFixed1
      (PrimFloat.mul
         (PrimFloat.div (JsNumber.ofNat (passed c + flaky c))
                        (JsNumber.ofNat totalTests))
         (JsNumber.ofNat 100))
  else lit "0.0".

Definition buildMessageCard (r : Reporter) (env : Env)
  (duration timestamp : jsstring) : MessageCard.t :=
  let overallStatus := getOverallStatus r in
  let themeColor := getThemeColor r in
  let c := testResults r in
  let totalTests := passed c + failed c + skipped c + flaky c + timedout c in
  let totalFailed := failed c + timedout c in
  let passRate := passRate c totalTests in
  let sections0 :=
    [CardSection.mk
       (Some (OverallStatus.emoji overallStatus ++ lit " " ++ projectName r
              ++ lit " - Test Execution Complete"))
       (Some (lit "Executed on " ++ timestamp ++ lit " | Duration: "
              ++ duration))
       (Some [Fact.mk (emojiChart ++ lit " Total Tests:") (Js.ofNat totalTests);
              Fact.mk (emojiCheck ++ lit " Passed:") (Js.ofNat (passed c));
              Fact.mk (emojiCross ++ lit " Failed:") (Js.ofNat totalFailed);
              Fact.mk (emojiNext ++ lit " Skipped:") (Js.ofNat (skipped c));
              Fact.mk (emojiWarning ++ lit " Flaky:") (Js.ofNat (flaky c));
              Fact.mk (emojiTrend ++ lit " Pass Rate:") (passRate ++ lit "%")])
       None true] in
  let ciMetadata := getCIMetadata env in
  let sections1 :=
    if (0 <? List.length ciMetadata)%nat then
      [CardSection.mk (Some (emojiWrench ++ lit " Environment")) None
         (Some ciMetadata) None true]
    else [] in
  let sections2 :=
    if (0 <? List.length (failedTests r))%nat then
      let failedTestsToShow :=
        Js.slice0 MAX_FAILED_TESTS_DISPLAY (failedTests r) in
      let failedTestsFacts :=
        mapi (fun test index =>
                Fact.mk (Js.ofNat (index + 1) ++ lit ". " ++ FailedTest.title test)
                  (truncateError (FailedTest.error test) ERROR_TRUNCATE_LENGTH))
             failedTestsToShow in
      [CardSection.mk
         (Some (emojiCross ++ lit " Failed Tests ("
                ++ Js.ofNat (List.length (failedTests r)) ++ lit ")"))
         None (Some failedTestsFacts) None true]
      ++ (if (MAX_FAILED_TESTS_DISPLAY <? List.length (failedTests r))%nat then
            [CardSection.mk None None None
               (Some (lit "_... and "
                      ++ Js.ofNat (List.length (failedTests r)
                                   - MAX_FAILED_TESTS_DISPLAY)
                      ++ lit " more failed tests. Check the full report for details._"))
               true]
          else [])
    else [] in
  let sections3 :=
    if (0 <? List.length (flakyTests r))%nat then
      let flakyTestsFacts :=
        mapi (fun test index =>
                Fact.mk (Js.ofNat (index + 1) ++ lit ". " ++ FlakyTest.title test)
                  (lit "Passed after " ++ Js.ofNat (FlakyTest.attempts test)
                   ++ lit " attempts"))
             (Js.slice0 MAX_FLAKY_TESTS_DISPLAY (flakyTests r)) in
      [CardSection.mk
         (Some (emojiWarning ++ lit " Flaky Tests ("
                ++ Js.ofNat (List.length (flakyTests r)) ++ lit ")"))
         None (Some flakyTestsFacts) None true]
    else [] in
  let potentialActions := getActionButtons env in
  MessageCard.mk
    (lit "MessageCard")
    (lit "https://schema.org/extensions")
    (lit "Playwright Test Results - " ++ OverallStatus.text overallStatus)
    themeColor
    (sections0 ++ sections1 ++ sections2 ++ sections3)
    (if (0 <? List.length potentialActions)%nat
     then Some potentialActions else None).


(* ================================================================== *)
(** ** Delivery client: [sendWebhookWithRetry] and [onEnd] *)
(* ================================================================== *)

(** The [validateStatus] option handed to axios: a response whose status
    fails it is thrown instead of returned. *)
Definition validateStatus (status : Z) : bool := (status <? 500)%Z.

(** [await axios.post(url, card, options)]: the status of the response it
    returns, or what it throws. *)
Definition axiosPost (o : NetOutcome) : Thrown + Z :=
  match o with
  | HttpResponse status =>
      if validateStatus status then inr status else inl (BadStatus status)
  | NoResponse why => inl (Transport why)
  end.

(** [Math.min(1000 * Math.pow(2, attempt - 1), MAX_BACKOFF_MS)].  The
    double arithmetic of the source is exact on these values (a power of
    two times 1000, and an overflow to infinity loses to the cap). *)
Definition waitTime (attempt : nat) : Z :=
  Z.min (1000 * 2 ^ (Z.of_nat attempt - 1)) MAX_BACKOFF_MS.

(** The three ways out of [sendWebhookWithRetry], which returns no value:
    the [return] after the success message, the [return] after the client
    error message, and the end of the loop. *)
Inductive Exit := ReturnedSent | ReturnedClientError | LoopExhausted.

(** The outcome the specification reads off the way out. *)
Inductive DeliveryOutcome := Delivered | Abandoned.

Definition outcome (e : Exit) : DeliveryOutcome :=
  match e with
  | ReturnedSent => Delivered
  | ReturnedClientError | LoopExhausted => Abandoned
  end.

Section Delivery.

(** The answer of the network to the request of each attempt. *)
Variable net : nat -> NetOutcome.
Variable url : jsstring.
Variable messageCard : MessageCard.t.
Variable maxRetries : nat.

(** The loop [for (attempt = 1; attempt <= maxRetries; attempt++)] from
    [attempt] on, with [remaining = maxRetries + 1 - attempt] iterations
    left to run. *)
Fixpoint attemptsFrom (remaining attempt : nat) : Exit * list Event :=
  match remaining with
  | O => (LoopExhausted, [Log (LogGaveUp maxRetries)])
  | S remaining' =>
      let request :=
        [Log (LogSending attempt maxRetries);
         Log (LogWebhookUrl (Js.substring url 0 60));
         Post attempt url messageCard] in
      match axiosPost (net attempt) with
      | inr status =>
          if (200 <=? status)%Z && (status <? 300)%Z then
            (ReturnedSent, request ++ [Log (LogSent status)])
          else if (400 <=? status)%Z && (status <? 500)%Z then
            (ReturnedClientError,
             request ++ [Log (LogWebhookFailed status); Log LogClientError])
          else
            let next := attemptsFrom remaining' (S attempt) in
            (fst next, request ++ [Log (LogWebhookFailed status)] ++ snd next)
      | inl error =>
          let wait :=
            if (attempt <? maxRetries)%nat
            then [Log (LogWaiting (waitTime attempt)); Sleep (waitTime attempt)]
            else [] in
          let next := attemptsFrom remaining' (S attempt) in
          (fst next,
           request ++ [Log (LogSendError attempt maxRetries error)] ++ wait
             ++ snd next)
      end
  end.

Definition sendWebhookWithRetry : Exit * list Event :=
  attemptsFrom maxRetries 1.

End Delivery.

(** [onEnd(result)], with the clock reading [now], the rendering
    [timestamp] of the current date, and the network.  The rejected promise
    of an exception is [None]. *)
Definition onEnd (r : Reporter) (env : Env) (now : Z) (timestamp : jsstring)
  (net : nat -> NetOutcome) : option Reporter * list Event :=
  match webhookUrl r with
  | Some (c :: u) =>
      let processed := processTestResults r in
      match fst processed with
      | None => (None, snd processed)
      | Some r' =>
          let duration := formatDuration (now - startTime r') in
          let messageCard := buildMessageCard r' env duration timestamp in
          let sent := sendWebhookWithRetry net (c :: u) messageCard 3 in
          (Some r', snd processed ++ snd sent)
      end
  | _ => (Some r, [Log LogSkipped])
  end.

(* ================================================================== *)
(** ** Reading a trace *)
(* ================================================================== *)

(** The requests and waits of a trace, without the console output. *)
Inductive Effect := Request (attempt : nat) | Wait (ms : Z).

Fixpoint effects (t : list Event) : list Effect :=
  match t with
  | [] => []
  | Log _ :: t' => effects t'
  | Post a _ _ :: t' => Request a :: effects t'
  | Sleep ms :: t' => Wait ms :: effects t'
  end.

(** The attempts on which a request was sent, in order. *)
Fixpoint sends (t : list Event) : list nat :=
  match t with
  | [] => []
  | Post a _ _ :: t' => a :: sends t'
  | _ :: t' => sends t'
  end.

(** The backoff waits, in order. *)
Fixpoint waits (t : list Event) : list Z :=
  match t with
  | [] => []
  | Sleep ms :: t' => ms :: waits t'
  | _ :: t' => waits t'
  end.

(** The payloads that were put on the wire. *)
Fixpoint payloads (t : list Event) : list MessageCard.t :=
  match t with
  | [] => []
  | Post _ _ card :: t' => card :: payloads t'
  | _ :: t' => payloads t'
  end.

(** A run of the reporter: the attempts reported to [onTestEnd], in
    order, from the state [r] on. *)
Fixpoint record (r : Reporter) (events : list (TestCase.t * TestResult.t))
  : Reporter :=
  match events with
  | [] => r
  | (test, result) :: rest => record (fst (onTestEnd r test result)) rest
  end.

(** The network that answers the successive requests with [script], and
    times out once the script is over. *)
Definition scripted (script : list NetOutcome) (attempt : nat) : NetOutcome :=
  nth (attempt - 1) script (NoResponse Timeout).


(* ================================================================== *)
(** ** Vocabulary of the specification *)
(* ================================================================== *)

(** The classes of the Result Classifier. *)
Inductive Classification := Passed | Flaky | Failed | Skipped | TimedOut.

(** One more test counted under a class. *)
Definition tally (k : Classification) (c : Counts) : Counts :=
  match k with
  | Passed => incPassed c
  | Flaky => incFlaky c
  | Failed => incFailed c
  | Skipped => incSkipped c
  | TimedOut => incTimedout c
  end.

(** The sum of the five aggregate counts. *)
Definition total (c : Counts) : nat :=
  passed c + failed c + skipped c + flaky c + timedout c.

(** The text of [s] before its [n]-th newline (all of [s] when it has
    fewer): the first [n] lines of [s], for [n >= 1]. *)
Fixpoint firstLines (n : nat) (s : jsstring) : jsstring :=
  match s with
  | [] => []
  | c :: s' =>
      if N.eqb c Js.newline then
        match n with
        | 0 | 1 => []
        | S n' => c :: firstLines n' s'
        end
      else c :: firstLines n s'
  end.

(** The failure detail the specification asks for, from a test and its
    final attempt. *)
Definition failureDetail (test : TestCase.t) (final : TestResult.t)
  : FailedTest.t :=
  {| FailedTest.title := TestCase.title test;
     FailedTest.error :=
       match TestResult.error final with
       | Some {| TestError.message := Some (c :: m) |} => c :: m
       | _ => lit "No error message available"
       end;
     FailedTest.stack :=
       match TestResult.error final with
       | Some {| TestError.stack := Some st |} => firstLines 3 st
       | _ => []
       end;
     FailedTest.location :=
       match TestCase.location test with
       | Some l => Location.file l ++ lit ":" ++ Js.ofNat (Location.line l)
       | None => lit "Unknown location"
       end |}.




(** The value of the fact called [name] in a facts block. *)
Fixpoint factValue (name : jsstring) (facts : list Fact.t) : option jsstring :=
  match facts with
  | [] => None
  | f :: facts' =>
      if Js.eqb (Fact.name f) name then Some (Fact.value f)
      else factValue name facts'
  end.

(** The facts block of the first section of a card. *)
Definition summaryFacts (card : MessageCard.t) : list Fact.t :=
  match MessageCard.sections card with
  | s :: _ =>
      match CardSection.facts s with
      | Some fs => fs
      | None => []
      end
  | [] => []
  end.

(** The classes of the delivery contract for the answer to one request. *)
Inductive ReplyClass := Success2xx | ClientError4xx | Retryable | OtherStatus.

Definition replyClass (o : NetOutcome) : ReplyClass :=
  match o with
  | NoResponse _ => Retryable
  | HttpResponse status =>
      if (500 <=? status)%Z then Retryable
      else if (200 <=? status)%Z && (status <? 300)%Z then Success2xx
      else if (400 <=? status)%Z && (status <? 500)%Z then ClientError4xx
      else OtherStatus
  end.

(** A failure the delivery contract retries: a status of 500 or more, or
    no response at all. *)
Definition retryableFailure (o : NetOutcome) : Prop :=
  match o with
  | HttpResponse status => (500 <= status)%Z
  | NoResponse _ => True
  end.

(** A response that is neither a success nor a client or server error: a
    status below 400 outside 200..299. *)
Definition unclassifiedStatus (o : NetOutcome) : Prop :=
  match o with
  | HttpResponse status =>
      (status < 400)%Z /\ ~ (200 <= status < 300)%Z
  | NoResponse _ => False
  end.

(** The wait that follows a failed attempt of each class, out of
    [maxRetries] attempts. *)
Definition pause (maxRetries : nat) (k : ReplyClass) (attempt : nat)
  : list Effect :=
  match k with
  | Retryable =>
      if (attempt <? maxRetries)%nat then [Wait (waitTime attempt)] else []
  | _ => []
  end.

(** The requests and waits of a delivery in which every one of the
    [maxRetries] attempts fails in a retryable way. *)
Definition retriedThroughout (maxRetries : nat) : list Effect :=
  flat_map
    (fun a =>
       Request a ::
       if (a <? maxRetries)%nat
       then [Wait (Z.min (1000 * 2 ^ (Z.of_nat a - 1)) 5000)]
       else [])
    (seq 1 maxRetries).

(** The status of the last attempt the store holds for [id]. *)
Definition storedStatus (m : JsMap.t Attempts.t) (id : jsstring)
  : option Status.t :=
  match JsMap.get m id with
  | Some data =>
      option_map (fun a => TestResult.status (Attempt.result a))
        (nth_error (Attempts.results data)
           (List.length (Attempts.results data) - 1))
  | None => None
  end.

(** Does a last status fall under one of the five classes? *)
Definition classified (s : option Status.t) : bool :=
  match s with
  | Some Status.interrupted | None => false
  | Some _ => true
  end.

(** An entry of the store that holds at least one attempt. *)
Definition nonEmptyEntry (kd : jsstring * Attempts.t) : Prop :=
  Attempts.results (snd kd) <> [].

(** Is the test of an entry counted under one of the five classes? *)
Definition countedEntry (kd : jsstring * Attempts.t) : bool :=
  classified
    (option_map (fun a => TestResult.status (Attempt.result a))
       (nth_error (Attempts.results (snd kd))
          (List.length (Attempts.results (snd kd)) - 1))).

(** The identities of a run, each once. *)
Definition identities (events : list (TestCase.t * TestResult.t))
  : list jsstring :=
  nodup (list_eq_dec N.eq_dec) (map (fun e => TestCase.id (fst e)) events).

(** The status of the last attempt recorded for [id]. *)
Fixpoint lastStatus (events : list (TestCase.t * TestResult.t)) (id : jsstring)
  : option Status.t :=
  match events with
  | [] => None
  | (test, result) :: rest =>
      match lastStatus rest id with
      | Some s => Some s
      | None =>
          if Js.eqb (TestCase.id test) id
          then Some (TestResult.status result) else None
      end
  end.


(* ================================================================== *)
(** ** Sample runs *)
(* ================================================================== *)

Module Sample.

(** An environment with an endpoint, and one without. *)
Definition env : Env :=
  fun name =>
    if Js.eqb name (lit "TEAMS_WEBHOOK_URL")
    then Some (lit "https://teams.example/webhook") else None.

Definition noEnv : Env := fun _ => None.

Definition test (name : string) : TestCase.t :=
  TestCase.mk (lit name) (lit name)
    (Some (Location.mk (lit "tests/login.spec.ts") 42 7)).

Definition ok (retry : nat) : TestResult.t :=
  TestResult.mk Status.passed retry None.

Definition stackText : jsstring :=
  lit "Error: boom" ++ [Js.newline] ++ lit "    at a (a.ts:1:1)"
    ++ [Js.newline] ++ lit "    at b (b.ts:2:2)"
    ++ [Js.newline] ++ lit "    at c (c.ts:3:3)".

Definition ko (retry : nat) : TestResult.t :=
  TestResult.mk Status.failed retry
    (Some (TestError.mk (Some (lit "boom")) (Some stackText))).

Definition stopped : TestResult.t := TestResult.mk Status.interrupted 0 None.

Definition fresh : Reporter := newReporter env (lit "edcs").



Definition url : jsstring := lit "https://teams.example/webhook".

(** The card of a run without tests. *)
Definition card : MessageCard.t :=
  buildMessageCard fresh env (lit "0s") (lit "now").

(** A reporter after the classification of the end-to-end scenario. *)
Definition afterScenario : Reporter := withCounts fresh (mkCounts 3 1 0 1 0).

(** An error message of 250 code units. *)
Definition longError : jsstring := repeat 120%N 250.

(** The end-to-end scenario: three tests pass at once, one fails and then
    passes, one fails twice. *)
Definition scenario : list (TestCase.t * TestResult.t) :=
  [(test "a", ok 0); (test "b", ok 0); (test "c", ok 0);
   (test "d", ko 0); (test "e", ko 0);
   (test "d", ok 1); (test "e", ko 1)].

End Sample.

(* ================================================================== *)
(** ** Further vocabulary: the store, accounting, the card, the wire *)
(* ================================================================== *)

(** The attempts a run reported for [id], in the order of arrival, each
    in the form the store keeps it. *)
Definition attemptsOf (events : list (TestCase.t * TestResult.t))
  (id : jsstring) : list Attempt.t :=
  map (fun e => Attempt.mk (snd e) (TestResult.retry (snd e)))
    (filter (fun e => Js.eqb (TestCase.id (fst e)) id) events).

(** The test object of the first attempt reported for [id]. *)
Fixpoint firstTest (events : list (TestCase.t * TestResult.t))
  (id : jsstring) : option TestCase.t :=
  match events with
  | [] => None
  | (test, _) :: rest =>
      if Js.eqb (TestCase.id test) id then Some test else firstTest rest id
  end.

(** The identities of a run that are not in [seen], each once, in the
    order of their first attempt. *)
Fixpoint newIds (seen : list jsstring)
  (events : list (TestCase.t * TestResult.t)) : list jsstring :=
  match events with
  | [] => []
  | (test, _) :: rest =>
      if existsb (Js.eqb (TestCase.id test)) seen then newIds seen rest
      else TestCase.id test :: newIds (seen ++ [TestCase.id test]) rest
  end.

Definition firstOccurrences (events : list (TestCase.t * TestResult.t))
  : list jsstring :=
  newIds [] events.

(** Counts added field by field. *)
Definition addCounts (a b : Counts) : Counts :=
  mkCounts (passed a + passed b) (failed a + failed b)
    (skipped a + skipped b) (flaky a + flaky b) (timedout a + timedout b).

(** A reporter with more tests counted and more detail records at the end
    of its two lists. *)
Definition extend (r : Reporter) (d : Counts) (fs : list FailedTest.t)
  (ks : list FlakyTest.t) : Reporter :=
  {| webhookUrl := webhookUrl r; startTime := startTime r;
     projectName := projectName r;
     testResults := addCounts (testResults r) d;
     failedTests := failedTests r ++ fs; flakyTests := flakyTests r ++ ks;
     testAttempts := testAttempts r |}.

Fixpoint sumZ (l : list Z) : Z :=
  match l with
  | [] => 0%Z
  | x :: l' => (x + sumZ l')%Z
  end.

(** The requests of a trace: where each went and what it carried. *)
Fixpoint requests (t : list Event) : list (jsstring * MessageCard.t) :=
  match t with
  | [] => []
  | Post _ url card :: t' => (url, card) :: requests t'
  | _ :: t' => requests t'
  end.

(** An answer after which the delivery loop goes on: neither a 2xx nor a
    4xx response. *)
Definition goesOn (o : NetOutcome) : Prop :=
  retryableFailure o \/ unclassifiedStatus o.

(** The facts of a section, none when it has no facts block. *)
Definition sectionFacts (s : CardSection.t) : list Fact.t :=
  match CardSection.facts s with
  | Some fs => fs
  | None => []
  end.

(** The last console line of a trace, when the trace ends in one. *)
Definition lastLine (t : list Event) : option LogLine :=
  match last t (Sleep 0) with
  | Log l => Some l
  | _ => None
  end.

(** The class of a test from its attempts, in the words of the
    classifier's contract: decided by the last attempt, a passed test
    being flaky when it has more than one attempt and some attempt failed
    or timed out; no class for an interrupted last attempt (or for no
    attempt at all). *)
Definition classOf (attempts : list Attempt.t) : option Classification :=
  match nth_error attempts (List.length attempts - 1) with
  | None => None
  | Some final =>
      match TestResult.status (Attempt.result final) with
      | Status.passed =>
          if existsb isFailure attempts && (1 <? List.length attempts)%nat
          then Some Flaky else Some Passed
      | Status.failed => Some Failed
      | Status.skipped => Some Skipped
      | Status.timedOut => Some TimedOut
      | Status.interrupted => None
      end
  end.

Definition sameClass (k : Classification) (o : option Classification) : bool :=
  match k, o with
  | Passed, Some Passed | Flaky, Some Flaky | Failed, Some Failed
  | Skipped, Some Skipped | TimedOut, Some TimedOut => true
  | _, _ => false
  end.

(** The count kept for a class. *)
Definition countUnder (k : Classification) (c : Counts) : nat :=
  match k with
  | Passed => passed c
  | Flaky => flaky c
  | Failed => failed c
  | Skipped => skipped c
  | TimedOut => timedout c
  end.

(** The failure record an entry of the store gives rise to, if any. *)
Definition entryFailed (kd : jsstring * Attempts.t) : list FailedTest.t :=
  match classOf (Attempts.results (snd kd)),
        nth_error (Attempts.results (snd kd))
          (List.length (Attempts.results (snd kd)) - 1) with
  | Some Failed, Some final | Some TimedOut, Some final =>
      [failureDetail (Attempts.test (snd kd)) (Attempt.result final)]
  | _, _ => []
  end.

(** The flaky record an entry of the store gives rise to, if any. *)
Definition entryFlaky (kd : jsstring * Attempts.t) : list FlakyTest.t :=
  match classOf (Attempts.results (snd kd)) with
  | Some Flaky =>
      [FlakyTest.mk (TestCase.title (Attempts.test (snd kd)))
         (List.length (Attempts.results (snd kd)))]
  | _ => []
  end.

(** How many entries of a store fall under a class. *)
Definition entriesUnder (k : Classification) (m : JsMap.t Attempts.t) : nat :=
  List.length
    (filter (fun kd => sameClass k (classOf (Attempts.results (snd kd)))) m).

Module Inputs.

(** An environment of a GitHub Actions run on a tag, with an endpoint and
    a report link. *)
Definition ci : Env :=
  fun name =>
    if Js.eqb name (lit "TEAMS_WEBHOOK_URL")
    then Some (lit "https://teams.example/webhook")
    else if Js.eqb name (lit "GITHUB_ACTIONS") then Some (lit "true")
    else if Js.eqb name (lit "GITHUB_REF") then Some (lit "refs/tags/v1.2")
    else if Js.eqb name (lit "GITHUB_SHA")
    then Some (lit "0123456789abcdef0123456789abcdef01234567")
    else if Js.eqb name (lit "PLAYWRIGHT_REPORT_URL")
    then Some (lit "https://ci.example/report")
    else None.

(** Twelve failed tests and six flaky ones, as classification leaves
    them. *)
Definition manyFailures : Reporter :=
  extend Sample.fresh (mkCounts 0 12 0 6 0)
    (map (fun n => FailedTest.mk (lit "t" ++ Js.ofNat n) Sample.longError
                     [] (lit "Unknown location"))
       (seq 1 12))
    (map (fun n => FlakyTest.mk (lit "f" ++ Js.ofNat n) 2) (seq 1 6)).

End Inputs.

(* ================================================================== *)
(** * Properties *)
(* ================================================================== *)

(** ** Strings *)

Lemma split_not_nil (sep : char16) (s : jsstring) : Js.split sep s <> [].
Proof.
  destruct s as [|c s]; simpl; [discriminate|].
  destruct (N.eqb c sep); [discriminate|].
  destruct (Js.split sep s); discriminate.
Qed.

Lemma join_cons (sep p : jsstring) (rest : list jsstring) :
  Js.join sep (p :: rest) =
  match rest with
  | [] => p
  | _ :: _ => p ++ sep ++ Js.join sep rest
  end.
Proof. destruct rest; reflexivity. Qed.

(** Splitting at newlines, keeping [n] pieces and joining them again gives
    the first [n] lines. *)
Lemma join_slice_split (s : jsstring) :
  forall n, (1 <= n)%nat ->
  Js.join [Js.newline] (Js.slice0 n (Js.split Js.newline s)) = firstLines n s.
Proof.
  unfold Js.slice0.
  induction s as [|c s IH]; intros n Hn.
  - destruct n as [|n]; [lia|]. cbn. now rewrite firstn_nil.
  - destruct n as [|n]; [lia|].
    cbn [Js.split firstLines].
    destruct (N.eqb_spec c Js.newline) as [->|Hc].
    + cbn [firstn]. rewrite join_cons.
      destruct n as [|n].
      * reflexivity.
      * specialize (IH (S n) ltac:(lia)).
        destruct (firstn (S n) (Js.split Js.newline s)) as [|q qs] eqn:E.
        -- exfalso. destruct (Js.split Js.newline s) eqn:E2.
           ++ exact (split_not_nil _ _ E2).
           ++ discriminate.
        -- cbn [app]. now rewrite IH.
    + specialize (IH (S n) ltac:(lia)).
      destruct (Js.split Js.newline s) as [|piece pieces] eqn:E.
      * exfalso. exact (split_not_nil _ _ E).
      * cbn [firstn] in *. rewrite join_cons in *.
        destruct (firstn n pieces); cbn [app]; now rewrite <- IH.
Qed.

Lemma or_else_nil (v : option jsstring) :
  Js.or_else v [] = match v with Some s => s | None => [] end.
Proof. destruct v as [[|c s]|]; reflexivity. Qed.

Lemma firstLines_nil (n : nat) : firstLines n [] = [].
Proof. reflexivity. Qed.

(** The capture routine stores the failure detail of the specification. *)
Lemma captureFailedTest_detail (r : Reporter) (test : TestCase.t)
  (result : TestResult.t) :
  captureFailedTest r test result = pushFailed r (failureDetail test result).
Proof.
  unfold captureFailedTest, failureDetail. f_equal. f_equal.
  - unfold errorMessageOf.
    destruct (TestResult.error result) as [[[[|c m]|] st]|]; reflexivity.
  - rewrite join_slice_split by lia. rewrite or_else_nil.
    unfold errorStackOf.
    destruct (TestResult.error result) as [[m [st|]]|]; reflexivity.
Qed.

(** ** Result classifier *)

Lemma final_of_results (earlier : list Attempt.t) (final : Attempt.t) :
  nth_error (earlier ++ [final]) (List.length (earlier ++ [final]) - 1)
  = Some final.
Proof.
  rewrite length_app. cbn [List.length].
  replace (List.length earlier + 1 - 1)%nat with (List.length earlier) by lia.
  rewrite nth_error_app2 by lia. now rewrite Nat.sub_diag.
Qed.


Lemma tally_injective (k k' : Classification) (c : Counts) :
  tally k c = tally k' c -> k = k'.
Proof.
  destruct c, k, k'; cbn; intros H; try reflexivity;
    injection H; intros; lia.
Qed.












(** ** Error truncation *)

Lemma substring_from_0 (s : jsstring) (e : Z) :
  (0 <= e)%Z -> Js.substring s 0 e = firstn (Z.to_nat e) s.
Proof.
  intros He. unfold Js.substring.
  set (len := Z.of_nat (List.length s)).
  assert (0 <= len)%Z by (subst len; lia).
  replace (Z.min (Z.max 0 0) len) with 0%Z by lia.
  replace (Z.min (Z.max e 0) len) with (Z.min e len) by lia.
  replace (Z.min 0 (Z.min e len)) with 0%Z by lia.
  replace (Z.max 0 (Z.min e len) - 0)%Z with (Z.min e len) by lia.
  cbn [Z.to_nat skipn].
  destruct (Z.le_gt_cases e len) as [Hle|Hgt].
  - now replace (Z.min e len) with e by lia.
  - replace (Z.min e len) with len by lia.
    subst len. rewrite Nat2Z.id.
    rewrite firstn_all. symmetry. apply firstn_all2. lia.
Qed.

Lemma truncateError_long (error : jsstring) (maxLength : Z) :
  (3 <= maxLength)%Z ->
  (maxLength < Z.of_nat (List.length error))%Z ->
  truncateError error maxLength
  = firstn (Z.to_nat (maxLength - 3)) error ++ lit "..."
  /\ Z.of_nat (List.length (truncateError error maxLength)) = maxLength.
Proof.
  intros H3 Hlong. unfold truncateError.
  destruct (Z.leb_spec (Z.of_nat (List.length error)) maxLength); [lia|].
  rewrite substring_from_0 by lia. split; [reflexivity|].
  rewrite length_app, length_firstn. cbn [lit List.length map list_ascii_of_string].
  lia.
Qed.

(** C7. An error message of at most 200 code units is returned as it is;
    a longer one becomes its first 197 code units followed by the three
    dots, 200 code units in all; so does a message of length 250. *)
Theorem C7_truncateError (error : jsstring) :
  ((List.length error <= 200)%nat ->
     truncateError error ERROR_TRUNCATE_LENGTH = error)
  /\ ((200 < List.length error)%nat ->
     truncateError error ERROR_TRUNCATE_LENGTH
     = firstn 197 error ++ lit "..."
     /\ List.length (truncateError error ERROR_TRUNCATE_LENGTH) = 200%nat)
  /\ (List.length error = 250%nat ->
     List.length (firstn 197 error) = 197%nat
     /\ truncateError error 200 = firstn 197 error ++ lit "..."
     /\ List.length (truncateError error 200) = 200%nat).
Proof.
  assert (Hlong : (200 < List.length error)%nat ->
     truncateError error 200 = firstn 197 error ++ lit "..."
     /\ List.length (truncateError error 200) = 200%nat).
  { intros H.
    destruct (truncateError_long error (maxLength := 200)) as [E L]; try lia.
    split; [exact E|lia]. }
  split; [|split].
  - intros H. unfold truncateError, ERROR_TRUNCATE_LENGTH.
    destruct (Z.leb_spec (Z.of_nat (List.length error)) 200); [reflexivity|lia].
  - exact Hlong.
  - intros H. split; [rewrite length_firstn; lia|]. apply Hlong. lia.
Qed.

(** The theorem at a message of 250 code units. *)
Lemma C7_witness :
  truncateError Sample.longError ERROR_TRUNCATE_LENGTH
  = firstn 197 Sample.longError ++ lit "..."
  /\ List.length (truncateError Sample.longError ERROR_TRUNCATE_LENGTH)
     = 200%nat.
Proof.
  apply (proj1 (proj2 (C7_truncateError Sample.longError))).
  unfold Sample.longError. rewrite repeat_length. lia.
Defined.

(** ** The summary card *)

(** C6. In the card, the fact shown as failed holds the Failed count plus
    the TimedOut count; the overall status, which ends the summary line, is
    FAILED when that sum is positive, else UNSTABLE when the Flaky count is
    positive, else PASSED; and the theme colour is one of three fixed
    values chosen by the same test. *)
Theorem C6_total_failed_status_and_colour
  (r : Reporter) (env : Env) (duration timestamp : jsstring) :
  let c := testResults r in
  let card := buildMessageCard r env duration timestamp in
  factValue (emojiCross ++ lit " Failed:") (summaryFacts card)
    = Some (Js.ofNat (failed c + timedout c))
  /\ MessageCard.summary card
     = lit "Playwright Test Results - " ++ OverallStatus.text (getOverallStatus r)
  /\ MessageCard.themeColor card = getThemeColor r
  /\ ((0 < failed c + timedout c)%nat ->
        OverallStatus.text (getOverallStatus r) = lit "FAILED"
        /\ getThemeColor r = lit "dc3545")
  /\ ((failed c + timedout c = 0)%nat -> (0 < flaky c)%nat ->
        OverallStatus.text (getOverallStatus r) = lit "UNSTABLE"
        /\ getThemeColor r = lit "ffc107")
  /\ ((failed c + timedout c = 0)%nat -> (flaky c = 0)%nat ->
        OverallStatus.text (getOverallStatus r) = lit "PASSED"
        /\ getThemeColor r = lit "28a745").
Proof.
  cbv zeta. unfold getOverallStatus, getThemeColor.
  destruct (testResults r) as [p f s fl t] eqn:Ec. cbn [failed timedout flaky].
  split; [|split; [|split; [|split; [|split]]]].
  - unfold buildMessageCard, summaryFacts. rewrite Ec. reflexivity.
  - unfold buildMessageCard, getOverallStatus. rewrite Ec. reflexivity.
  - unfold buildMessageCard, getThemeColor. rewrite Ec. reflexivity.
  - intros H. destruct f, t; cbn in *; try lia; split; reflexivity.
  - intros H0 H1. destruct f, t; cbn in *; try lia.
    destruct fl; [lia|]. split; reflexivity.
  - intros H0 H1. destruct f, t; cbn in *; try lia. subst fl.
    split; reflexivity.
Qed.

(** The theorem at the counts of the end-to-end scenario, where one test
    failed. *)
Lemma C6_witness :
  OverallStatus.text (getOverallStatus Sample.afterScenario) = lit "FAILED"
  /\ getThemeColor Sample.afterScenario = lit "dc3545".
Proof.
  apply (proj1 (proj2 (proj2 (proj2
           (C6_total_failed_status_and_colour Sample.afterScenario Sample.env
              (lit "1s") (lit "now")))))).
  cbn. lia.
Defined.

Lemma passRate_flaky_as_passed (p f s fl t n : nat) :
  passRate (mkCounts (S p) f s fl t) n = passRate (mkCounts p f s (S fl) t) n.
Proof.
  unfold passRate. cbn [passed flaky].
  now replace (p + S fl)%nat with (S p + fl)%nat by lia.
Qed.

(** C10. The pass rate shown in the facts block is the text "0.0" when no
    test was counted, and otherwise the one-decimal rendering of
    (Passed + Flaky) / total * 100, computed on doubles; a flaky test
    weighs as a passed one: with 3 passed, 1 flaky and 1 failed test the
    rate is 80.0. *)
Theorem C10_pass_rate_counts_flaky
  (r : Reporter) (env : Env) (duration timestamp : jsstring) :
  let c := testResults r in
  let card := buildMessageCard r env duration timestamp in
  factValue (emojiTrend ++ lit " Pass Rate:") (summaryFacts card)
    = Some (passRate c (total c) ++ lit "%")
  /\ ((total c = 0)%nat -> passRate c (total c) = lit "0.0")
  /\ ((0 < total c)%nat ->
        passRate c (total c)
        = JsNumber.toFixed1
            (PrimFloat.mul
               (PrimFloat.div (JsNumber.ofNat (passed c + flaky c))
                              (JsNumber.ofNat (total c)))
               (JsNumber.ofNat 100)))
  /\ (forall p f s fl t n,
        passRate (mkCounts (S p) f s fl t) n
        = passRate (mkCounts p f s (S fl) t) n)
  /\ passRate (mkCounts 3 1 0 1 0) 5 = lit "80.0"
  /\ passRate (mkCounts 0 0 0 4 0) 4 = lit "100.0"
  /\ passRate (mkCounts 2 1 0 0 0) 3 = lit "66.7".
Proof.
  cbv zeta. split; [|split; [|split; [|split; [|split; [|split]]]]].
  - unfold buildMessageCard, summaryFacts, total. reflexivity.
  - intros H. unfold passRate. now rewrite H.
  - intros H. unfold passRate.
    destruct (total (testResults r)); [lia|reflexivity].
  - exact passRate_flaky_as_passed.
  - vm_compute. reflexivity.
  - vm_compute. reflexivity.
  - vm_compute. reflexivity.
Qed.

(** The theorem at the counts of the end-to-end scenario: five tests. *)
Lemma C10_witness :
  passRate (testResults Sample.afterScenario)
    (total (testResults Sample.afterScenario))
  = JsNumber.toFixed1
      (PrimFloat.mul
         (PrimFloat.div (JsNumber.ofNat 4) (JsNumber.ofNat 5))
         (JsNumber.ofNat 100)).
Proof.
  apply (proj1 (proj2 (proj2
           (C10_pass_rate_counts_flaky Sample.afterScenario Sample.env
              (lit "1s") (lit "now"))))).
  cbn. lia.
Defined.

(** ** Delivery client *)

Unset Implicit Arguments.

Lemma effects_app (t u : list Event) :
  effects (t ++ u) = effects t ++ effects u.
Proof.
  induction t as [|[l|a url card|ms] t IH]; cbn; now rewrite ?IH.
Qed.

Lemma sends_effects (t : list Event) (a : nat) :
  In a (sends t) <-> In (Request a) (effects t).
Proof.
  induction t as [|[l|a' url card|ms] t IH]; cbn; try tauto.
  - rewrite IH. split; intros [H|H]; auto; left; congruence.
  - rewrite IH. split; [auto|]. intros [H|H]; [discriminate|auto].
Qed.

Lemma sends_of_effects (t : list Event) :
  sends t = flat_map (fun e => match e with Request a => [a] | Wait _ => [] end)
              (effects t).
Proof.
  induction t as [|[l|a' url card|ms] t IH]; cbn; now rewrite ?IH.
Qed.

Lemma waits_of_effects (t : list Event) :
  waits t = flat_map (fun e => match e with Request _ => [] | Wait ms => [ms] end)
              (effects t).
Proof.
  induction t as [|[l|a' url card|ms] t IH]; cbn; now rewrite ?IH.
Qed.

Lemma replyClass_retryable (o : NetOutcome) :
  retryableFailure o <-> replyClass o = Retryable.
Proof.
  destruct o as [status|why]; cbn; [|tauto].
  destruct (Z.leb_spec 500 status); [tauto|].
  split; [lia|].
  destruct ((200 <=? status)%Z && (status <? 300)%Z); [discriminate|].
  destruct ((400 <=? status)%Z && (status <? 500)%Z); discriminate.
Qed.

Lemma replyClass_success (status : Z) :
  (200 <= status < 300)%Z <-> replyClass (HttpResponse status) = Success2xx.
Proof.
  cbn. destruct (Z.leb_spec 500 status), (Z.leb_spec 200 status),
    (Z.ltb_spec status 300), (Z.leb_spec 400 status), (Z.ltb_spec status 500);
    cbn; split; intros; try lia; try discriminate; reflexivity.
Qed.

Lemma replyClass_client (status : Z) :
  (400 <= status < 500)%Z <-> replyClass (HttpResponse status) = ClientError4xx.
Proof.
  cbn. destruct (Z.leb_spec 500 status), (Z.leb_spec 200 status),
    (Z.ltb_spec status 300), (Z.leb_spec 400 status), (Z.ltb_spec status 500);
    cbn; split; intros; try lia; try discriminate; reflexivity.
Qed.

Lemma replyClass_other (o : NetOutcome) :
  unclassifiedStatus o <-> replyClass o = OtherStatus.
Proof.
  destruct o as [status|why]; cbn; [|split; [tauto|discriminate]].
  destruct (Z.leb_spec 500 status), (Z.leb_spec 200 status),
    (Z.ltb_spec status 300), (Z.leb_spec 400 status), (Z.ltb_spec status 500);
    cbn; split; intros; try lia; try discriminate; try reflexivity;
    try (split; lia).
Qed.

Section DeliveryFacts.

Variable net : nat -> NetOutcome.
Variable url : jsstring.
Variable card : MessageCard.t.
Variable maxRetries : nat.

Local Abbreviation run := (attemptsFrom net url card maxRetries).

Lemma run_step (k i : nat) :
  effects (snd (run (S k) i)) =
    Request i ::
    match replyClass (net i) with
    | Success2xx | ClientError4xx => []
    | c => pause maxRetries c i ++ effects (snd (run k (S i)))
    end
  /\ fst (run (S k) i) =
    match replyClass (net i) with
    | Success2xx => ReturnedSent
    | ClientError4xx => ReturnedClientError
    | _ => fst (run k (S i))
    end.
Proof.
  cbn [attemptsFrom].
  destruct (net i) as [status|why]; unfold axiosPost, validateStatus, replyClass.
  - rewrite (Z.leb_antisym status 500).
    destruct (status <? 500)%Z eqn:E5; cbn [negb andb].
    + rewrite E5.
      destruct (200 <=? status)%Z, (status <? 300)%Z, (400 <=? status)%Z;
        cbn [andb fst snd]; rewrite ?effects_app; split; reflexivity.
    + cbn [fst snd pause]. rewrite !effects_app.
      destruct (i <? maxRetries)%nat; split; reflexivity.
  - cbn [fst snd pause]. rewrite !effects_app.
    destruct (i <? maxRetries)%nat; split; reflexivity.
Qed.

Lemma run_done (i : nat) :
  effects (snd (run 0 i)) = [] /\ fst (run 0 i) = LoopExhausted.
Proof. now cbn. Qed.

Lemma pause_no_request (k : ReplyClass) (i a : nat) :
  ~ In (Request a) (pause maxRetries k i).
Proof.
  unfold pause. destruct k; try (cbn; tauto).
  destruct (i <? maxRetries)%nat; cbn; intuition discriminate.
Qed.

(** Requests carry the numbers of the attempts that were made. *)
Lemma run_requests_in_range (k : nat) :
  forall i a, In (Request a) (effects (snd (run k i))) ->
  (i <= a < i + k)%nat.
Proof.
  induction k as [|k IH]; intros i a Hin.
  - destruct (run_done i) as [E _]. rewrite E in Hin. contradiction.
  - destruct (run_step k i) as [E _]. rewrite E in Hin.
    destruct Hin as [Heq|Hin]; [injection Heq; lia|].
    destruct (replyClass (net i)); try contradiction;
      apply in_app_or in Hin as [Hin|Hin];
      try (now apply pause_no_request in Hin);
      apply IH in Hin; lia.
Qed.

(** An attempt that is answered by a success or by a client error is the
    last thing the delivery does. *)
Lemma run_stops (k : nat) :
  forall i a, In (Request a) (effects (snd (run k i))) ->
  replyClass (net a) = Success2xx \/ replyClass (net a) = ClientError4xx ->
  fst (run k i)
  = match replyClass (net a) with
    | Success2xx => ReturnedSent
    | _ => ReturnedClientError
    end
  /\ exists pre, effects (snd (run k i)) = pre ++ [Request a].
Proof.
  induction k as [|k IH]; intros i a Hin Hc.
  - destruct (run_done i) as [E _]. rewrite E in Hin. contradiction.
  - destruct (run_step k i) as [E X]. rewrite E in Hin. rewrite E, X.
    destruct Hin as [Heq|Hin].
    + injection Heq as ->.
      destruct Hc as [-> | ->]; (split; [reflexivity|now exists []]).
    + destruct (replyClass (net i)) eqn:Ei; try contradiction;
        apply in_app_or in Hin as [Hin|Hin];
        try (now apply pause_no_request in Hin);
        destruct (IH _ _ Hin Hc) as [HX [pre Hpre]];
        (split; [exact HX|]); rewrite Hpre;
        [exists (Request i :: pause maxRetries Retryable i ++ pre)
        | exists (Request i :: pause maxRetries OtherStatus i ++ pre)];
        cbn [app]; rewrite <- ?app_assoc; reflexivity.
Qed.

(** An attempt that fails without stopping the loop, and is not the last
    one, is followed by the pause of its class and by the next request. *)
Lemma run_continues (k : nat) :
  forall i a, In (Request a) (effects (snd (run k i))) ->
  replyClass (net a) = Retryable \/ replyClass (net a) = OtherStatus ->
  (i + k = maxRetries + 1)%nat -> (a < maxRetries)%nat ->
  exists pre post,
    effects (snd (run k i))
    = pre ++ Request a :: pause maxRetries (replyClass (net a)) a
          ++ Request (S a) :: post.
Proof.
  induction k as [|k IH]; intros i a Hin Hc Hinv Ha.
  - destruct (run_done i) as [E _]. rewrite E in Hin. contradiction.
  - destruct (run_step k i) as [E _]. rewrite E in Hin. rewrite E.
    destruct Hin as [Heq|Hin].
    + injection Heq as ->.
      destruct k as [|k]; [lia|].
      destruct (run_step k (S a)) as [E' _]. rewrite E'.
      exists []. eexists.
      destruct Hc as [-> | ->]; cbn [app]; reflexivity.
    + destruct (replyClass (net i)) eqn:Ei; try contradiction;
        apply in_app_or in Hin as [Hin|Hin];
        try (now apply pause_no_request in Hin);
        destruct (IH (S i) a Hin Hc ltac:(lia) Ha) as (pre & post & Hpre);
        rewrite Hpre;
        [exists (Request i :: pause maxRetries Retryable i ++ pre)
        | exists (Request i :: pause maxRetries OtherStatus i ++ pre)];
        exists post; cbn [app]; rewrite <- ?app_assoc; reflexivity.
Qed.

(** When no attempt stops the loop, every attempt is made and the loop
    runs out. *)
Lemma run_exhausts (k : nat) :
  forall i,
  (forall a, (i <= a < i + k)%nat ->
     replyClass (net a) = Retryable \/ replyClass (net a) = OtherStatus) ->
  fst (run k i) = LoopExhausted
  /\ effects (snd (run k i))
     = flat_map (fun a => Request a :: pause maxRetries (replyClass (net a)) a) (seq i k).
Proof.
  induction k as [|k IH]; intros i Hall.
  - now cbn.
  - destruct (run_step k i) as [E X]. rewrite E, X.
    destruct (IH (S i)) as [HX HE]; [intros a Ha; apply Hall; lia|].
    cbn [seq flat_map]. rewrite <- HE.
    destruct (Hall i ltac:(lia)) as [-> | ->]; now cbn.
Qed.

(** The requests are numbered from the first attempt on, without gaps. *)
Lemma run_numbering (k : nat) :
  forall i, exists n, (n <= k)%nat /\ sends (snd (run k i)) = seq i n.
Proof.
  induction k as [|k IH]; intros i.
  - exists 0%nat. now cbn.
  - rewrite sends_of_effects. destruct (run_step k i) as [E _]. rewrite E.
    destruct (IH (S i)) as (n & Hn & Hs). rewrite sends_of_effects in Hs.
    destruct (replyClass (net i)).
    + exists 1%nat. split; [lia|reflexivity].
    + exists 1%nat. split; [lia|reflexivity].
    + exists (S n). split; [lia|]. cbn [flat_map seq app].
      rewrite flat_map_app, Hs. unfold pause.
      destruct (i <? maxRetries)%nat; reflexivity.
    + exists (S n). split; [lia|]. cbn [flat_map seq app pause]. now rewrite Hs.
Qed.

End DeliveryFacts.

Section DeliveryLast.

Variable net : nat -> NetOutcome.
Variable url : jsstring.
Variable card : MessageCard.t.
Variable maxRetries : nat.

Local Abbreviation run := (attemptsFrom net url card maxRetries).

(** A failure on the last attempt ends the loop, without a wait. *)
Lemma run_last (k : nat) :
  forall i, In (Request maxRetries) (effects (snd (run k i))) ->
  replyClass (net maxRetries) = Retryable
  \/ replyClass (net maxRetries) = OtherStatus ->
  (i + k = maxRetries + 1)%nat ->
  fst (run k i) = LoopExhausted
  /\ exists pre, effects (snd (run k i)) = pre ++ [Request maxRetries].
Proof.
  induction k as [|k IH]; intros i Hin Hc Hinv.
  - destruct (run_done net url card maxRetries i) as [E _].
    rewrite E in Hin. contradiction.
  - destruct (run_step net url card maxRetries k i) as [E X].
    rewrite E in Hin. rewrite E, X.
    destruct Hin as [Heq|Hin].
    + injection Heq as ->.
      assert (k = 0)%nat as -> by lia.
      destruct (run_done net url card maxRetries (S maxRetries)) as [E0 X0].
      rewrite E0, X0. unfold pause. rewrite Nat.ltb_irrefl.
      destruct Hc as [-> | ->]; (split; [reflexivity|now exists []]).
    + destruct (replyClass (net i)) eqn:Ei; try contradiction;
        apply in_app_or in Hin as [Hin|Hin];
        try (now apply pause_no_request in Hin);
        destruct (IH (S i) Hin Hc ltac:(lia)) as [HX [pre Hpre]];
        (split; [exact HX|]); rewrite Hpre;
        [exists (Request i :: pause maxRetries Retryable i ++ pre)
        | exists (Request i :: pause maxRetries OtherStatus i ++ pre)];
        cbn [app]; rewrite <- ?app_assoc; reflexivity.
Qed.

(** A wait happens only right after a request that failed in a retryable
    way on an attempt before the last, and lasts the backoff of that
    attempt. *)
Lemma run_waits (k : nat) :
  forall i pre ms post,
  effects (snd (run k i)) = pre ++ Wait ms :: post ->
  exists pre' a,
    pre = pre' ++ [Request a]
    /\ replyClass (net a) = Retryable
    /\ (a < maxRetries)%nat
    /\ ms = waitTime a.
Proof.
  induction k as [|k IH]; intros i pre ms post Hsplit.
  - destruct (run_done net url card maxRetries i) as [E _].
    rewrite E in Hsplit. now destruct pre.
  - destruct (run_step net url card maxRetries k i) as [E _].
    rewrite E in Hsplit.
    destruct pre as [|e pre1]; [discriminate|].
    injection Hsplit as <- Hrest.
    assert (Hnext : forall pre2,
              effects (snd (run k (S i))) = pre2 ++ Wait ms :: post ->
              forall front, exists pre' a,
                front ++ pre2 = pre' ++ [Request a]
                /\ replyClass (net a) = Retryable
                /\ (a < maxRetries)%nat /\ ms = waitTime a).
    { intros pre2 H2 front.
      destruct (IH (S i) pre2 ms post H2) as (pre' & a & -> & Hc & Ha & Hms).
      exists (front ++ pre'), a. rewrite app_assoc. auto. }
    destruct (replyClass (net i)) eqn:Ei.
    + now destruct pre1.
    + now destruct pre1.
    + unfold pause in Hrest.
      destruct (i <? maxRetries)%nat eqn:Hlt.
      * destruct pre1 as [|e pre2]; cbn [app] in Hrest.
        -- injection Hrest as Hms _. subst ms. exists [], i.
           apply Nat.ltb_lt in Hlt. auto.
        -- injection Hrest as <- Hrest.
           apply (Hnext pre2 Hrest [Request i; Wait (waitTime i)]).
      * cbn [app] in Hrest. apply (Hnext pre1 Hrest [Request i]).
    + cbn [pause app] in Hrest. apply (Hnext pre1 Hrest [Request i]).
Qed.

End DeliveryLast.

Lemma flat_map_agree {A B : Type} (f g : A -> list B) (l : list A) :
  (forall a, In a l -> f a = g a) -> flat_map f l = flat_map g l.
Proof.
  induction l as [|x l IH]; intros H; [reflexivity|].
  cbn [flat_map]. rewrite (H x (or_introl eq_refl)).
  f_equal. apply IH. intros a Ha. apply H. now right.
Qed.

Lemma flat_map_single {A B : Type} (f : A -> B) (l : list A) :
  flat_map (fun a => [f a]) l = map f l.
Proof. induction l as [|x l IH]; cbn; now rewrite ?IH. Qed.

Lemma requests_only (l : list nat) :
  flat_map (fun e => match e with Request a => [a] | Wait _ => [] end)
    (map Request l) = l
  /\ flat_map (fun e => match e with Request _ => [] | Wait ms => [ms] end)
       (map Request l) = [].
Proof.
  induction l as [|x l [IH1 IH2]]; [now split|].
  cbn [map flat_map app]. now rewrite IH1, IH2.
Qed.

Lemma sends_retriedThroughout (maxRetries : nat) (l : list nat) :
  flat_map (fun e => match e with Request a => [a] | Wait _ => [] end)
    (flat_map
       (fun a =>
          Request a ::
          if (a <? maxRetries)%nat
          then [Wait (Z.min (1000 * 2 ^ (Z.of_nat a - 1)) 5000)]
          else [])
       l)
  = l.
Proof.
  induction l as [|a l IH]; [reflexivity|].
  cbn [flat_map]. rewrite flat_map_app, IH.
  destruct (a <? maxRetries)%nat; reflexivity.
Qed.

Lemma waitTime_values :
  waitTime 1 = 1000%Z /\ waitTime 2 = 2000%Z /\ waitTime 3 = 4000%Z
  /\ forall a, (4 <= a)%nat -> waitTime a = 5000%Z.
Proof.
  repeat split. intros a Ha. unfold waitTime, MAX_BACKOFF_MS.
  assert (2 ^ 3 <= 2 ^ (Z.of_nat a - 1))%Z
    by (apply Z.pow_le_mono_r; lia).
  change (2 ^ 3)%Z with 8%Z in *. lia.
Qed.

(** C3. In a delivery with [maxRetries] attempts budgeted: a request that
    fails in a retryable way (status 500 or more, or no response: timeout,
    DNS failure, refused connection, other I/O) on an attempt [a] before
    the last is followed by a wait of min(1000 * 2^(a-1), 5000) ms and
    then by the request of attempt [a + 1]; a request answered by a 2xx
    status is the last action and the outcome is Delivered; when all
    attempts fail in a retryable way, all [maxRetries] requests are sent,
    with a wait between consecutive ones, and the outcome is Abandoned.
    The answers 500, 500, 200 with three attempts give three requests,
    waits of 1000 and 2000 ms and Delivered; three timeouts give three
    requests and Abandoned. *)
Theorem C3_retry_with_backoff :
  (forall (net : nat -> NetOutcome) (url : jsstring) (card : MessageCard.t)
          (maxRetries : nat),
     let run := sendWebhookWithRetry net url card maxRetries in
     (forall a,
        In (Request a) (effects (snd run)) -> (a < maxRetries)%nat ->
        retryableFailure (net a) ->
        exists pre post,
          effects (snd run)
          = pre ++ Request a
                :: Wait (Z.min (1000 * 2 ^ (Z.of_nat a - 1)) 5000)
                :: Request (S a) :: post)
     /\ (forall a status,
           In (Request a) (effects (snd run)) ->
           net a = HttpResponse status -> (200 <= status < 300)%Z ->
           outcome (fst run) = Delivered
           /\ exists pre, effects (snd run) = pre ++ [Request a])
     /\ ((forall a, (1 <= a <= maxRetries)%nat -> retryableFailure (net a)) ->
           outcome (fst run) = Abandoned
           /\ effects (snd run) = retriedThroughout maxRetries
           /\ sends (snd run) = seq 1 maxRetries)
     /\ (exists n, (n <= maxRetries)%nat /\ sends (snd run) = seq 1 n))
  /\ (forall (url : jsstring) (card : MessageCard.t),
        let run :=
          sendWebhookWithRetry
            (scripted [HttpResponse 500; HttpResponse 500; HttpResponse 200])
            url card 3 in
        sends (snd run) = [1; 2; 3]%nat
        /\ waits (snd run) = [1000; 2000]%Z
        /\ effects (snd run)
           = [Request 1; Wait 1000; Request 2; Wait 2000; Request 3]
        /\ outcome (fst run) = Delivered)
  /\ (forall (url : jsstring) (card : MessageCard.t),
        let run :=
          sendWebhookWithRetry
            (scripted [NoResponse Timeout; NoResponse Timeout;
                       NoResponse Timeout])
            url card 3 in
        sends (snd run) = [1; 2; 3]%nat
        /\ waits (snd run) = [1000; 2000]%Z
        /\ outcome (fst run) = Abandoned).
Proof.
  split; [|split].
  - intros net url card maxRetries. cbv zeta. unfold sendWebhookWithRetry.
    split; [|split; [|split]].
    + intros a Hin Ha Hr. apply replyClass_retryable in Hr.
      destruct (run_continues net url card maxRetries maxRetries 1 a Hin
                  (or_introl Hr) ltac:(lia) Ha) as (pre & post & E).
      exists pre, post. rewrite E, Hr. unfold pause.
      apply Nat.ltb_lt in Ha. rewrite Ha. reflexivity.
    + intros a status Hin Hnet Hs.
      apply replyClass_success in Hs. rewrite <- Hnet in Hs.
      destruct (run_stops net url card maxRetries maxRetries 1 a Hin
                  (or_introl Hs)) as [X E].
      rewrite X, Hs. split; [reflexivity|exact E].
    + intros Hall.
      destruct (run_exhausts net url card maxRetries maxRetries 1) as [X E].
      { intros a Ha. left. apply replyClass_retryable. apply Hall. lia. }
      rewrite X. split; [reflexivity|].
      assert (E' : effects (snd (attemptsFrom net url card maxRetries
                                   maxRetries 1))
                   = retriedThroughout maxRetries).
      { rewrite E. unfold retriedThroughout. apply flat_map_agree.
        intros a Ha. apply in_seq in Ha.
        assert (Hr : replyClass (net a) = Retryable)
          by (apply replyClass_retryable, Hall; lia).
        rewrite Hr. reflexivity. }
      split; [exact E'|].
      rewrite sends_of_effects, E'. apply sends_retriedThroughout.
    + apply run_numbering.
  - intros url card. cbv zeta. repeat split; reflexivity.
  - intros url card. cbv zeta. repeat split; reflexivity.
Qed.

(** The theorem at the answers 500, 500, 200: the failure of the second
    attempt is followed by a wait of 2000 ms and the third request. *)
Lemma C3_witness :
  exists pre post,
    effects (snd (sendWebhookWithRetry
                    (scripted [HttpResponse 500; HttpResponse 500;
                               HttpResponse 200])
                    Sample.url Sample.card 3))
    = pre ++ Request 2
          :: Wait (Z.min (1000 * 2 ^ (Z.of_nat 2 - 1)) 5000)
          :: Request 3 :: post.
Proof.
  apply (proj1 (proj1 C3_retry_with_backoff
                  (scripted [HttpResponse 500; HttpResponse 500;
                             HttpResponse 200])
                  Sample.url Sample.card 3%nat) 2%nat).
  - cbn. right; right; left; reflexivity.
  - lia.
  - cbn. lia.
Defined.

(** C4. A request answered by a 4xx status is the last action of the
    delivery: no request and no wait follows it, whatever budget is left,
    and the outcome is Abandoned.  A 404 on the first attempt gives exactly
    one request and no wait. *)
Theorem C4_client_error_is_not_retried :
  (forall (net : nat -> NetOutcome) (url : jsstring) (card : MessageCard.t)
          (maxRetries a : nat) (status : Z),
     let run := sendWebhookWithRetry net url card maxRetries in
     In (Request a) (effects (snd run)) ->
     net a = HttpResponse status -> (400 <= status < 500)%Z ->
     fst run = ReturnedClientError
     /\ outcome (fst run) = Abandoned
     /\ exists pre, effects (snd run) = pre ++ [Request a])
  /\ (forall (net : nat -> NetOutcome) (url : jsstring) (card : MessageCard.t)
             (maxRetries : nat),
        let run := sendWebhookWithRetry net url card maxRetries in
        (1 <= maxRetries)%nat -> net 1%nat = HttpResponse 404 ->
        effects (snd run) = [Request 1]
        /\ sends (snd run) = [1%nat]
        /\ waits (snd run) = []
        /\ outcome (fst run) = Abandoned)
  /\ (forall (url : jsstring) (card : MessageCard.t),
        let run :=
          sendWebhookWithRetry (scripted [HttpResponse 404]) url card 3 in
        effects (snd run) = [Request 1]
        /\ sends (snd run) = [1%nat]
        /\ waits (snd run) = []
        /\ outcome (fst run) = Abandoned).
Proof.
  split; [|split].
  - intros net url card maxRetries a status. cbv zeta.
    unfold sendWebhookWithRetry. intros Hin Hnet Hs.
    apply replyClass_client in Hs. rewrite <- Hnet in Hs.
    destruct (run_stops net url card maxRetries maxRetries 1 a Hin
                (or_intror Hs)) as [X E].
    rewrite X, Hs. repeat split; [exact E].
  - intros net url card maxRetries. cbv zeta. unfold sendWebhookWithRetry.
    intros Hmax Hnet. destruct maxRetries as [|k]; [lia|].
    destruct (run_step net url card (S k) k 1) as [E X].
    rewrite sends_of_effects, waits_of_effects, E, X, Hnet.
    repeat split; reflexivity.
  - intros url card. cbv zeta. repeat split; reflexivity.
Qed.

(** The theorem at a 403 that answers the second attempt, after a
    timeout: the delivery ends there, with budget left. *)
Lemma C4_witness :
  fst (sendWebhookWithRetry
         (scripted [NoResponse Timeout; HttpResponse 403]) Sample.url
         Sample.card 3)
  = ReturnedClientError
  /\ outcome (fst (sendWebhookWithRetry
                     (scripted [NoResponse Timeout; HttpResponse 403])
                     Sample.url Sample.card 3))
     = Abandoned
  /\ exists pre,
       effects (snd (sendWebhookWithRetry
                       (scripted [NoResponse Timeout; HttpResponse 403])
                       Sample.url Sample.card 3))
       = pre ++ [Request 2].
Proof.
  apply (proj1 C4_client_error_is_not_retried
           (scripted [NoResponse Timeout; HttpResponse 403])
           Sample.url Sample.card 3%nat 2%nat 403%Z).
  - cbn. right; right; left; reflexivity.
  - reflexivity.
  - lia.
Defined.

(** C9. A request answered by a status below 400 that is not a 2xx (a 3xx
    in particular) neither ends the delivery nor is followed by a wait: on
    an attempt before the last the very next action is the request of the
    next attempt; on the last attempt the loop runs out and the outcome is
    Abandoned.  When all [maxRetries] attempts are answered so, all
    requests are sent back to back, without any wait, and the outcome is
    Abandoned.  A wait occurs only right after a request that failed with
    a status of 500 or more or without a response. *)
Theorem C9_other_status_retried_without_wait :
  (forall (net : nat -> NetOutcome) (url : jsstring) (card : MessageCard.t)
          (maxRetries : nat),
     let run := sendWebhookWithRetry net url card maxRetries in
     (forall a,
        In (Request a) (effects (snd run)) -> unclassifiedStatus (net a) ->
        (a < maxRetries)%nat ->
        exists pre post,
          effects (snd run) = pre ++ Request a :: Request (S a) :: post)
     /\ (In (Request maxRetries) (effects (snd run)) ->
         unclassifiedStatus (net maxRetries) ->
         outcome (fst run) = Abandoned
         /\ exists pre, effects (snd run) = pre ++ [Request maxRetries])
     /\ ((forall a, (1 <= a <= maxRetries)%nat -> unclassifiedStatus (net a)) ->
         outcome (fst run) = Abandoned
         /\ effects (snd run) = map Request (seq 1 maxRetries)
         /\ sends (snd run) = seq 1 maxRetries
         /\ waits (snd run) = [])
     /\ (forall pre ms post,
           effects (snd run) = pre ++ Wait ms :: post ->
           exists pre' a,
             pre = pre' ++ [Request a]
             /\ retryableFailure (net a)
             /\ (a < maxRetries)%nat
             /\ ms = Z.min (1000 * 2 ^ (Z.of_nat a - 1)) 5000))
  /\ (forall (url : jsstring) (card : MessageCard.t),
        let run :=
          sendWebhookWithRetry
            (scripted [HttpResponse 302; HttpResponse 304; HttpResponse 399])
            url card 3 in
        effects (snd run) = [Request 1; Request 2; Request 3]
        /\ outcome (fst run) = Abandoned)
  /\ (forall (url : jsstring) (card : MessageCard.t),
        let run :=
          sendWebhookWithRetry
            (scripted [HttpResponse 302; HttpResponse 200]) url card 3 in
        effects (snd run) = [Request 1; Request 2]
        /\ outcome (fst run) = Delivered).
Proof.
  split; [|split].
  - intros net url card maxRetries. cbv zeta. unfold sendWebhookWithRetry.
    split; [|split; [|split]].
    + intros a Hin Ho Ha. apply replyClass_other in Ho.
      destruct (run_continues net url card maxRetries maxRetries 1 a Hin
                  (or_intror Ho) ltac:(lia) Ha) as (pre & post & E).
      exists pre, post. rewrite E, Ho. reflexivity.
    + intros Hin Ho. apply replyClass_other in Ho.
      destruct (run_last net url card maxRetries maxRetries 1 Hin (or_intror Ho)
                  ltac:(lia)) as [X E].
      rewrite X. split; [reflexivity|exact E].
    + intros Hall.
      destruct (run_exhausts net url card maxRetries maxRetries 1) as [X E].
      { intros a Ha. right. apply replyClass_other. apply Hall. lia. }
      rewrite X.
      assert (E' : effects (snd (attemptsFrom net url card maxRetries
                                   maxRetries 1))
                   = map Request (seq 1 maxRetries)).
      { rewrite E. rewrite <- flat_map_single. apply flat_map_agree.
        intros a Ha. apply in_seq in Ha.
        assert (Ho : replyClass (net a) = OtherStatus)
          by (apply replyClass_other, Hall; lia).
        rewrite Ho. reflexivity. }
      split; [reflexivity|]. split; [exact E'|].
      rewrite sends_of_effects, waits_of_effects, E'.
      apply requests_only.
    + intros pre ms post Hsplit.
      destruct (run_waits net url card maxRetries maxRetries 1 pre ms post
                  Hsplit) as (pre' & a & Hpre & Hc & Ha & Hms).
      exists pre', a. apply replyClass_retryable in Hc. auto.
  - intros url card. cbv zeta. repeat split; reflexivity.
  - intros url card. cbv zeta. repeat split; reflexivity.
Qed.

(** The theorem at a 302 that answers the first attempt: the second
    request follows at once. *)
Lemma C9_witness :
  exists pre post,
    effects (snd (sendWebhookWithRetry
                    (scripted [HttpResponse 302; HttpResponse 200])
                    Sample.url Sample.card 3))
    = pre ++ Request 1 :: Request 2 :: post.
Proof.
  apply (proj1 (proj1 C9_other_status_retried_without_wait
                  (scripted [HttpResponse 302; HttpResponse 200])
                  Sample.url Sample.card 3%nat) 1%nat).
  - cbn. left; reflexivity.
  - cbn. lia.
  - lia.
Defined.

(** ** Attempt store *)

Lemma eqb_eq (a b : jsstring) : Js.eqb a b = true <-> a = b.
Proof.
  unfold Js.eqb. destruct (list_eq_dec N.eq_dec a b); split;
    congruence.
Qed.

Lemma eqb_refl (a : jsstring) : Js.eqb a a = true.
Proof. now apply eqb_eq. Qed.

Lemma eqb_neq (a b : jsstring) : a <> b -> Js.eqb a b = false.
Proof.
  intros H. destruct (Js.eqb a b) eqn:E; [|reflexivity].
  apply eqb_eq in E. contradiction.
Qed.

Section StoreFacts.

Context {V : Type}.

Lemma get_set_same (m : JsMap.t V) (k : jsstring) (v : V) :
  JsMap.get (JsMap.set m k v) k = Some v.
Proof.
  induction m as [|[k' v'] m IH]; cbn.
  - now rewrite eqb_refl.
  - destruct (Js.eqb k' k) eqn:E; cbn; now rewrite E.
Qed.

Lemma get_set_other (m : JsMap.t V) (k k' : jsstring) (v : V) :
  k <> k' -> JsMap.get (JsMap.set m k v) k' = JsMap.get m k'.
Proof.
  intros Hne. induction m as [|[k0 v0] m IH]; cbn.
  - now rewrite eqb_neq.
  - destruct (Js.eqb k0 k) eqn:E; cbn.
    + apply eqb_eq in E. subst k0. now rewrite (eqb_neq k k').
    + now rewrite IH.
Qed.

Lemma has_keys (m : JsMap.t V) (k : jsstring) :
  JsMap.has m k = true <-> In k (JsMap.keys m).
Proof.
  unfold JsMap.has, JsMap.keys.
  induction m as [|[k' v'] m IH]; cbn; [split; [discriminate|tauto]|].
  destruct (Js.eqb k' k) eqn:E.
  - apply eqb_eq in E. split; auto.
  - rewrite IH. split; [auto|]. intros [H|H]; [|exact H].
    apply eqb_eq in H. congruence.
Qed.

Lemma keys_set (m : JsMap.t V) (k : jsstring) (v : V) :
  JsMap.keys (JsMap.set m k v)
  = if JsMap.has m k then JsMap.keys m else JsMap.keys m ++ [k].
Proof.
  unfold JsMap.has, JsMap.keys.
  induction m as [|[k' v'] m IH]; cbn; [reflexivity|].
  destruct (Js.eqb k' k) eqn:E; cbn; [reflexivity|].
  rewrite IH. now destruct (JsMap.get m k).
Qed.

Lemma has_set (m : JsMap.t V) (k : jsstring) (v : V) :
  JsMap.has (JsMap.set m k v) k = true.
Proof. unfold JsMap.has. now rewrite get_set_same. Qed.

Lemma Forall_set (P : jsstring * V -> Prop) (m : JsMap.t V)
  (k : jsstring) (v : V) :
  (forall k', P (k', v)) -> Forall P m -> Forall P (JsMap.set m k v).
Proof.
  intros Hv. induction 1 as [|[k' v'] m Hx Hm IH]; cbn.
  - constructor; [apply Hv|constructor].
  - destruct (Js.eqb k' k); constructor; auto.
Qed.

(** With each key once, reading at the key of an entry finds that entry. *)
Lemma filter_by_key (f : V -> bool) (g : option V -> bool) (m : JsMap.t V) :
  NoDup (JsMap.keys m) ->
  (forall v, g (Some v) = f v) ->
  List.length (filter (fun kv => f (snd kv)) m)
  = List.length (filter (fun k => g (JsMap.get m k)) (JsMap.keys m)).
Proof.
  intros Hnd Hg. unfold JsMap.keys in *.
  induction m as [|[k v] m IH]; [reflexivity|].
  cbn [map fst] in Hnd. inversion Hnd as [|? ? Hnotin Hnd']; subst.
  cbn [filter map fst snd JsMap.get]. rewrite eqb_refl, Hg.
  assert (E : filter (fun k0 => g (if Js.eqb k k0 then Some v else JsMap.get m k0))
                (map fst m)
              = filter (fun k0 => g (JsMap.get m k0)) (map fst m)).
  { apply filter_ext_in. intros k0 Hk0.
    rewrite eqb_neq; [reflexivity|]. intros ->. contradiction. }
  rewrite E. destruct (f v); cbn [List.length]; now rewrite IH.
Qed.

End StoreFacts.

Lemma onTestEnd_store (r : Reporter) (test : TestCase.t) (result : TestResult.t) :
  exists data,
    testAttempts (fst (onTestEnd r test result))
    = JsMap.set (testAttempts r) (TestCase.id test)
        (Attempts.mk (Attempts.test data)
           (Attempts.results data
              ++ [Attempt.mk result (TestResult.retry result)]))
    /\ (JsMap.has (testAttempts r) (TestCase.id test) = true
        /\ JsMap.get (testAttempts r) (TestCase.id test) = Some data
        \/ JsMap.has (testAttempts r) (TestCase.id test) = false
           /\ data = Attempts.mk test []).
Proof.
  unfold onTestEnd. cbn [fst testAttempts withAttempts].
  destruct (JsMap.has (testAttempts r) (TestCase.id test)) eqn:Hhas;
    cbn [negb].
  - unfold JsMap.has in Hhas.
    destruct (JsMap.get (testAttempts r) (TestCase.id test)) as [data|] eqn:G;
      [|discriminate].
    exists data. split; [reflexivity|]. left. now split.
  - rewrite get_set_same. exists (Attempts.mk test []).
    split; [|right; now split].
    cbn [Attempts.test Attempts.results].
    generalize (Attempts.mk test ([] ++ [Attempt.mk result (TestResult.retry result)])).
    intros v. unfold JsMap.has in Hhas.
    induction (testAttempts r) as [|[k' v'] m IH]; cbn in *.
    + now rewrite eqb_refl.
    + destruct (Js.eqb k' (TestCase.id test)) eqn:E; [discriminate|].
      cbn. rewrite E. now rewrite IH.
Qed.

Lemma onTestEnd_keys (r : Reporter) (test : TestCase.t) (result : TestResult.t) :
  JsMap.keys (testAttempts (fst (onTestEnd r test result)))
  = if JsMap.has (testAttempts r) (TestCase.id test)
    then JsMap.keys (testAttempts r)
    else JsMap.keys (testAttempts r) ++ [TestCase.id test].
Proof.
  destruct (onTestEnd_store r test result) as (data & E & _).
  rewrite E. apply keys_set.
Qed.

Lemma onTestEnd_status (r : Reporter) (test : TestCase.t)
  (result : TestResult.t) (id : jsstring) :
  storedStatus (testAttempts (fst (onTestEnd r test result))) id
  = if Js.eqb (TestCase.id test) id
    then Some (TestResult.status result)
    else storedStatus (testAttempts r) id.
Proof.
  destruct (onTestEnd_store r test result) as (data & E & _).
  rewrite E. unfold storedStatus.
  destruct (Js.eqb (TestCase.id test) id) eqn:Eid.
  - apply eqb_eq in Eid. subst id. rewrite get_set_same.
    cbn [Attempts.results]. now rewrite final_of_results.
  - rewrite get_set_other; [reflexivity|].
    intros Heq. rewrite Heq, eqb_refl in Eid. discriminate.
Qed.

Lemma onTestEnd_nonEmpty (r : Reporter) (test : TestCase.t) (result : TestResult.t) :
  Forall nonEmptyEntry (testAttempts r) ->
  Forall nonEmptyEntry (testAttempts (fst (onTestEnd r test result))).
Proof.
  intros H. destruct (onTestEnd_store r test result) as (data & E & _).
  rewrite E. apply Forall_set; [|exact H].
  intros k'. unfold nonEmptyEntry. cbn.
  destruct (Attempts.results data); discriminate.
Qed.

Lemma onTestEnd_frame (r : Reporter) (test : TestCase.t) (result : TestResult.t) :
  let r' := fst (onTestEnd r test result) in
  webhookUrl r' = webhookUrl r /\ testResults r' = testResults r
  /\ failedTests r' = failedTests r /\ flakyTests r' = flakyTests r
  /\ projectName r' = projectName r /\ startTime r' = startTime r.
Proof. cbn. tauto. Qed.

(** What a run leaves in the store. *)
Lemma record_store (events : list (TestCase.t * TestResult.t)) :
  forall r,
  let m := testAttempts r in
  let m' := testAttempts (record r events) in
  (NoDup (JsMap.keys m) -> NoDup (JsMap.keys m'))
  /\ (forall id, In id (JsMap.keys m') <->
        In id (JsMap.keys m)
        \/ In id (map (fun e => TestCase.id (fst e)) events))
  /\ (Forall nonEmptyEntry m -> Forall nonEmptyEntry m')
  /\ (forall id, storedStatus m' id
        = match lastStatus events id with
          | Some s => Some s
          | None => storedStatus m id
          end)
  /\ webhookUrl (record r events) = webhookUrl r
  /\ testResults (record r events) = testResults r
  /\ failedTests (record r events) = failedTests r
  /\ flakyTests (record r events) = flakyTests r.
Proof.
  induction events as [|[test result] events IH]; intros r; cbv zeta.
  - cbn. repeat split; auto; tauto.
  - cbn [record lastStatus map fst].
    destruct (IH (fst (onTestEnd r test result)))
      as (Hnd & Hin & Hne & Hst & Hw & Hc & Hf & Hk).
    cbv zeta in Hnd, Hin, Hne, Hst.
    assert (Hkeys := onTestEnd_keys r test result).
    repeat split.
    + intros H. apply Hnd. rewrite Hkeys.
      destruct (JsMap.has (testAttempts r) (TestCase.id test)) eqn:Hh;
        [exact H|].
      apply NoDup_app; repeat split; auto.
      * constructor; [intros []|constructor].
      * intros a Ha [<-|[]]. apply has_keys in Ha. congruence.
    + intros H. apply Hin in H. rewrite Hkeys in H.
      destruct (JsMap.has (testAttempts r) (TestCase.id test)) eqn:Hh.
      * destruct H as [H|H]; [now left|right; now right].
      * destruct H as [H|H]; [|right; now right].
        apply in_app_or in H as [H|[<-|[]]]; [now left|right; now left].
    + intros H. apply Hin. rewrite Hkeys.
      destruct (JsMap.has (testAttempts r) (TestCase.id test)) eqn:Hh.
      * destruct H as [H|[<-|H]]; [now left| |now right].
        left. now apply has_keys.
      * destruct H as [H|[<-|H]]; [| |now right]; left; apply in_or_app;
          [now left|right; now left].
    + intros H. now apply Hne, onTestEnd_nonEmpty.
    + intros id. rewrite Hst, onTestEnd_status.
      destruct (lastStatus events id); [reflexivity|].
      now destruct (Js.eqb (TestCase.id test) id).
    + now rewrite Hw.
    + now rewrite Hc.
    + now rewrite Hf.
    + now rewrite Hk.
Qed.

Lemma captureFailedTest_counts (r : Reporter) (test : TestCase.t)
  (result : TestResult.t) :
  testResults (captureFailedTest r test result) = testResults r.
Proof. reflexivity. Qed.

(** Every entry with an attempt is processed, and adds one to the total
    unless its last attempt was interrupted. *)
Lemma processEntry_total (r : Reporter) (kd : jsstring * Attempts.t) :
  nonEmptyEntry kd ->
  exists r',
    processEntry r (snd kd) = Some r'
    /\ total (testResults r')
       = (total (testResults r) + if countedEntry kd then 1 else 0)%nat.
Proof.
  unfold nonEmptyEntry, countedEntry, processEntry. intros Hne.
  destruct (nth_error (Attempts.results (snd kd))
              (List.length (Attempts.results (snd kd)) - 1))
    as [final|] eqn:E.
  - cbn [option_map classified].
    destruct (TestResult.status (Attempt.result final));
      try destruct (existsb isFailure (Attempts.results (snd kd))
                    && (1 <? List.length (Attempts.results (snd kd)))%nat);
      eexists; (split; [reflexivity|]);
      rewrite ?captureFailedTest_counts;
      destruct (testResults r); unfold total; cbn; lia.
  - apply nth_error_None in E.
    destruct (Attempts.results (snd kd)); [contradiction|cbn in E; lia].
Qed.

Lemma processEntries_total (entries : JsMap.t Attempts.t) :
  Forall nonEmptyEntry entries ->
  forall r, exists r',
    processEntries r entries = Some r'
    /\ total (testResults r')
       = (total (testResults r)
          + List.length (filter countedEntry entries))%nat.
Proof.
  induction 1 as [|[k data] entries Hx Hrest IH]; intros r.
  - exists r. cbn. split; [reflexivity|lia].
  - destruct (processEntry_total r (k, data) Hx) as (r1 & E1 & T1).
    destruct (IH r1) as (r2 & E2 & T2).
    exists r2. cbn [processEntries]. cbn [snd] in E1. rewrite E1.
    split; [exact E2|]. rewrite T2, T1. cbn [filter].
    destruct (countedEntry (k, data)); cbn [List.length]; lia.
Qed.

Lemma filter_length_Permutation {A : Type} (f : A -> bool) (l l' : list A) :
  Permutation.Permutation l l' ->
  List.length (filter f l) = List.length (filter f l').
Proof.
  induction 1 as [|x l l' H IH|x y l|l l' l'' H1 IH1 H2 IH2]; cbn.
  - reflexivity.
  - destruct (f x); cbn; now rewrite IH.
  - destruct (f x), (f y); reflexivity.
  - now rewrite IH1.
Qed.

(** The accounting of a whole run: after classification the five counts
    add up to the number of identities whose last recorded attempt is not
    interrupted. *)
Lemma run_total (env : Env) (name : jsstring)
  (events : list (TestCase.t * TestResult.t)) :
  exists r',
    fst (processTestResults (record (newReporter env name) events)) = Some r'
    /\ total (testResults r')
       = List.length
           (filter (fun id => classified (lastStatus events id))
              (identities events))
    /\ JsMap.size (testAttempts (record (newReporter env name) events))
       = List.length (identities events).
Proof.
  destruct (record_store events (newReporter env name))
    as (Hnd & Hin & Hne & Hst & _ & Hc & _).
  cbv zeta in Hnd, Hin, Hne, Hst.
  set (r := record (newReporter env name) events) in *.
  specialize (Hnd (NoDup_nil _)). specialize (Hne (Forall_nil _)).
  assert (Hperm : Permutation.Permutation (JsMap.keys (testAttempts r))
                    (identities events)).
  { apply Permutation.NoDup_Permutation;
      [exact Hnd|apply NoDup_nodup|].
    intros id. unfold identities. rewrite nodup_In, Hin. cbn. tauto. }
  destruct (processEntries_total (testAttempts r) Hne r) as (r' & E & T).
  exists r'. cbn [processTestResults fst]. split; [exact E|]. split.
  - rewrite T, Hc. cbn [newReporter testResults total passed failed skipped
                         flaky timedout Nat.add].
    rewrite <- (filter_length_Permutation _ _ _ Hperm).
    replace (filter countedEntry (testAttempts r))
      with (filter (fun kv => countedEntry (@nil N, snd kv)) (testAttempts r))
      by (apply filter_ext; intros [k d]; reflexivity).
    rewrite (filter_by_key
               (fun data => countedEntry (@nil N, data))
               (fun o => classified
                  match o with
                  | Some data =>
                      option_map
                        (fun a => TestResult.status (Attempt.result a))
                        (nth_error (Attempts.results data)
                           (List.length (Attempts.results data) - 1))
                  | None => None
                  end)
               (testAttempts r) Hnd (fun v => eq_refl)).
    f_equal. apply filter_ext. intros id.
    specialize (Hst id). unfold storedStatus in Hst. rewrite Hst.
    cbn [newReporter testAttempts JsMap.get].
    now destruct (lastStatus events id).
  - unfold JsMap.size. rewrite <- (Permutation.Permutation_length Hperm).
    unfold JsMap.keys. now rewrite length_map.
Qed.

(** ** Whole runs *)

(** C5 (what the code does on an interrupted test).  A run in which one
    test was recorded, with the single status [interrupted], holds one
    identity; classification succeeds and leaves all five counts at zero.
    Next to the five tests of the end-to-end scenario, a sixth test that
    was interrupted leaves the sum of the counts at five for six
    identities. *)
Theorem C5_interrupted_test_is_not_counted :
  (let events := [(Sample.test "a", Sample.stopped)] in
   let r := record Sample.fresh events in
   List.length (identities events) = 1%nat
   /\ JsMap.size (testAttempts r) = 1%nat
   /\ exists r',
        fst (processTestResults r) = Some r'
        /\ testResults r' = mkCounts 0 0 0 0 0
        /\ total (testResults r') = 0%nat)
  /\ (let events := Sample.scenario ++ [(Sample.test "f", Sample.stopped)] in
      let r := record Sample.fresh events in
      List.length (identities events) = 6%nat
      /\ JsMap.size (testAttempts r) = 6%nat
      /\ exists r',
           fst (processTestResults r) = Some r'
           /\ testResults r' = mkCounts 3 1 0 1 0
           /\ total (testResults r') = 5%nat).
Proof.
  split; cbv zeta; (split; [reflexivity|]); (split; [reflexivity|]);
    eexists; (split; [vm_compute; reflexivity|]); split; reflexivity.
Qed.

(** After classification the five counts add up to the number of
    identities of the run whose last recorded attempt has a status other
    than [interrupted]; the store holds one entry per identity. *)
Theorem total_counts_of_a_run (env : Env) (name : jsstring)
  (events : list (TestCase.t * TestResult.t)) :
  exists r',
    fst (processTestResults (record (newReporter env name) events)) = Some r'
    /\ total (testResults r')
       = List.length
           (filter (fun id => classified (lastStatus events id))
              (identities events))
    /\ JsMap.size (testAttempts (record (newReporter env name) events))
       = List.length (identities events).
Proof. apply run_total. Qed.

(** When no test of the run ends on an interrupted attempt, the five
    counts add up to the number of identities. *)
Theorem total_counts_without_interruption (env : Env) (name : jsstring)
  (events : list (TestCase.t * TestResult.t))
  (Hnone : forall id, lastStatus events id <> Some Status.interrupted) :
  exists r',
    fst (processTestResults (record (newReporter env name) events)) = Some r'
    /\ total (testResults r') = List.length (identities events).
Proof.
  destruct (run_total env name events) as (r' & E & T & _).
  exists r'. split; [exact E|]. rewrite T.
  assert (Hall : forall l : list jsstring,
            (forall id, In id l -> In id (identities events)) ->
            filter (fun id => classified (lastStatus events id)) l = l).
  { induction l as [|id l IH]; intros Hl; [reflexivity|].
    cbn [filter].
    assert (Hc : classified (lastStatus events id) = true).
    { assert (Hid : In id (identities events)) by (apply Hl; now left).
      unfold identities in Hid. rewrite nodup_In in Hid.
      specialize (Hnone id).
      assert (Hsome : lastStatus events id <> None).
      { clear Hnone Hl IH E T. induction events as [|[t res] ev IHev];
          [contradiction|].
        cbn [lastStatus map fst] in *.
        destruct Hid as [Hid|Hid].
        - rewrite Hid, eqb_refl. now destruct (lastStatus ev id).
        - specialize (IHev Hid). now destruct (lastStatus ev id). }
      destruct (lastStatus events id) as [[]|]; try reflexivity; congruence. }
    rewrite Hc. f_equal. apply IH. intros x Hx. apply Hl. now right. }
  now rewrite Hall.
Qed.

Lemma total_counts_without_interruption_witness :
  exists r',
    fst (processTestResults
           (record (newReporter Sample.env (lit "edcs")) Sample.scenario))
    = Some r'
    /\ total (testResults r') = List.length (identities Sample.scenario).
Proof.
  apply (total_counts_without_interruption Sample.env (lit "edcs")
           Sample.scenario).
  intros id.
  assert (H : forall s, lastStatus Sample.scenario id = Some s ->
                        s <> Status.interrupted).
  { unfold Sample.scenario. cbn [lastStatus].
    repeat match goal with
           | |- context [Js.eqb ?a id] => destruct (Js.eqb a id)
           end;
      intros s Hs; inversion Hs; subst; discriminate. }
  intros Hs. exact (H _ Hs eq_refl).
Defined.

(** The end-to-end scenario: of five tests, three pass at once, one fails
    and then passes, one fails twice; the counts are 3 passed, 1 flaky,
    1 failed, none skipped or timed out, and the run is FAILED.  With the
    answers 500, 500, 200 the card goes out on the third request. *)
Theorem end_to_end_scenario :
  let r := record Sample.fresh Sample.scenario in
  let run :=
    onEnd r Sample.env 1000 (lit "now")
      (scripted [HttpResponse 500; HttpResponse 500; HttpResponse 200]) in
  exists r',
    fst run = Some r'
    /\ testResults r' = mkCounts 3 1 0 1 0
    /\ OverallStatus.text (getOverallStatus r') = lit "FAILED"
    /\ map FlakyTest.title (flakyTests r') = [lit "d"]
    /\ failedTests r'
       = [FailedTest.mk (lit "e") (lit "boom")
            (lit "Error: boom" ++ [Js.newline] ++ lit "    at a (a.ts:1:1)"
               ++ [Js.newline] ++ lit "    at b (b.ts:2:2)")
            (lit "tests/login.spec.ts:42")]
    /\ effects (snd run)
       = [Request 1; Wait 1000; Request 2; Wait 2000; Request 3]
    /\ payloads (snd run)
       = repeat (buildMessageCard r' Sample.env (lit "1s") (lit "now")) 3.
Proof.
  cbv zeta. eexists. split; [vm_compute; reflexivity|].
  repeat split; vm_compute; reflexivity.
Qed.

(** C8. Without an endpoint (the variable is unset or empty) the run-end
    handler only prints that it skips the notification: it returns
    normally, leaves the reporter as it was (nothing is classified), and
    sends no request, so no card is put on the wire and no wait occurs.
    This holds for every run recorded by a reporter that was created in an
    environment without the endpoint variable. *)
Theorem C8_no_endpoint_skips_delivery :
  (forall (r : Reporter) (env : Env) (now : Z) (timestamp : jsstring)
          (net : nat -> NetOutcome),
     Js.truthy (webhookUrl r) = false ->
     onEnd r env now timestamp net = (Some r, [Log LogSkipped]))
  /\ (forall (env env' : Env) (name : jsstring)
             (events : list (TestCase.t * TestResult.t))
             (now : Z) (timestamp : jsstring) (net : nat -> NetOutcome),
        Js.truthy (env (lit "TEAMS_WEBHOOK_URL")) = false ->
        let r := record (newReporter env name) events in
        let run := onEnd r env' now timestamp net in
        fst run = Some r
        /\ snd run = [Log LogSkipped]
        /\ payloads (snd run) = []
        /\ sends (snd run) = []
        /\ waits (snd run) = [])
  /\ (let run :=
        onEnd (record (newReporter Sample.noEnv (lit "edcs")) Sample.scenario)
          Sample.noEnv 1000 (lit "now") (scripted [HttpResponse 200]) in
      fst run
      = Some (record (newReporter Sample.noEnv (lit "edcs")) Sample.scenario)
      /\ snd run = [Log LogSkipped]).
Proof.
  assert (Hskip : forall r env now timestamp net,
            Js.truthy (webhookUrl r) = false ->
            onEnd r env now timestamp net = (Some r, [Log LogSkipped])).
  { intros r env now timestamp net H. unfold onEnd.
    destruct (webhookUrl r) as [[|c u]|]; cbn in H;
      [reflexivity|discriminate|reflexivity]. }
  split; [exact Hskip|split].
  - intros env env' name events now timestamp net H. cbv zeta.
    rewrite Hskip; [now repeat split|].
    destruct (record_store events (newReporter env name))
      as (_ & _ & _ & _ & Hw & _).
    rewrite Hw. exact H.
  - cbv zeta. rewrite Hskip; [now split|].
    destruct (record_store Sample.scenario (newReporter Sample.noEnv (lit "edcs")))
      as (_ & _ & _ & _ & Hw & _).
    rewrite Hw. reflexivity.
Qed.

(** The theorem at a reporter created without the endpoint variable. *)
Lemma C8_witness :
  onEnd (newReporter Sample.noEnv (lit "edcs")) Sample.noEnv 1000 (lit "now")
    (scripted [HttpResponse 200])
  = (Some (newReporter Sample.noEnv (lit "edcs")), [Log LogSkipped]).
Proof.
  apply (proj1 C8_no_endpoint_skips_delivery).
  reflexivity.
Defined.

(* ================================================================== *)
(** * Further properties of the code *)
(* ================================================================== *)

(** ** What the store holds *)

Lemma eqb_sym (a b : jsstring) : Js.eqb a b = Js.eqb b a.
Proof.
  destruct (Js.eqb a b) eqn:E.
  - apply eqb_eq in E. subst. symmetry. apply eqb_refl.
  - symmetry. apply eqb_neq. intros ->. now rewrite eqb_refl in E.
Qed.

Lemma has_existsb (m : JsMap.t Attempts.t) (k : jsstring) :
  JsMap.has m k = existsb (Js.eqb k) (JsMap.keys m).
Proof.
  unfold JsMap.has, JsMap.keys.
  induction m as [|[k' v] m IH]; cbn; [reflexivity|].
  rewrite (eqb_sym k k'). now destruct (Js.eqb k' k).
Qed.

Lemma has_false_get (m : JsMap.t Attempts.t) (k : jsstring) :
  JsMap.has m k = false -> JsMap.get m k = None.
Proof. unfold JsMap.has. now destruct (JsMap.get m k). Qed.

Lemma record_keys (events : list (TestCase.t * TestResult.t)) :
  forall r,
  JsMap.keys (testAttempts (record r events))
  = JsMap.keys (testAttempts r) ++ newIds (JsMap.keys (testAttempts r)) events.
Proof.
  induction events as [|[test result] events IH]; intros r.
  - cbn. now rewrite app_nil_r.
  - cbn [record newIds]. rewrite IH, onTestEnd_keys, <- has_existsb.
    destruct (JsMap.has (testAttempts r) (TestCase.id test)).
    + reflexivity.
    + now rewrite <- app_assoc.
Qed.

Lemma record_contents (events : list (TestCase.t * TestResult.t)) :
  forall r id,
  JsMap.get (testAttempts (record r events)) id
  = match JsMap.get (testAttempts r) id with
    | Some d =>
        Some (Attempts.mk (Attempts.test d)
                (Attempts.results d ++ attemptsOf events id))
    | None =>
        match firstTest events id with
        | Some t => Some (Attempts.mk t (attemptsOf events id))
        | None => None
        end
    end.
Proof.
  induction events as [|[test result] events IH]; intros r id.
  - cbn. destruct (JsMap.get (testAttempts r) id) as [[t rs]|];
      [|reflexivity].
    cbn. now rewrite app_nil_r.
  - cbn [record]. rewrite IH.
    destruct (onTestEnd_store r test result) as (data & E & Hcase).
    rewrite E. unfold attemptsOf. cbn [filter firstTest fst snd].
    destruct (Js.eqb (TestCase.id test) id) eqn:Eid.
    + apply eqb_eq in Eid. subst id. rewrite get_set_same.
      cbn [Attempts.test Attempts.results map].
      destruct Hcase as [[_ Hget]|[Hno ->]].
      * rewrite Hget. now rewrite <- app_assoc.
      * rewrite (has_false_get _ _ Hno). reflexivity.
    + rewrite get_set_other; [reflexivity|].
      intros Heq. rewrite Heq, eqb_refl in Eid. discriminate.
Qed.

Lemma firstTest_none (events : list (TestCase.t * TestResult.t))
  (id : jsstring) :
  firstTest events id = None
  <-> ~ In id (map (fun e => TestCase.id (fst e)) events).
Proof.
  induction events as [|[test result] events IH]; cbn; [tauto|].
  destruct (Js.eqb (TestCase.id test) id) eqn:E.
  - apply eqb_eq in E. split; [discriminate|]. intros H. exfalso. auto.
  - rewrite IH. split; [|tauto]. intros H [Heq|Hin]; [|tauto].
    rewrite Heq, eqb_refl in E. discriminate.
Qed.

(** The store of a run holds one entry per identity, in the order in
    which the identities were first reported; the entry of an identity
    holds the test object of its first attempt and all the attempts
    reported for it, in the order of arrival, each with the retry index of
    its result; an identity that was never reported has no entry. *)
Theorem store_holds_the_attempts_in_order (env : Env) (name : jsstring)
  (events : list (TestCase.t * TestResult.t)) (id : jsstring) :
  let m := testAttempts (record (newReporter env name) events) in
  JsMap.keys m = firstOccurrences events
  /\ JsMap.get m id
     = match firstTest events id with
       | Some t => Some (Attempts.mk t (attemptsOf events id))
       | None => None
       end
  /\ (JsMap.get m id = None
      <-> ~ In id (map (fun e => TestCase.id (fst e)) events)).
Proof.
  cbv zeta. split; [|split].
  - now rewrite record_keys.
  - now rewrite record_contents.
  - rewrite record_contents. cbn [newReporter testAttempts JsMap.get].
    rewrite <- firstTest_none.
    destruct (firstTest events id); split; congruence.
Qed.

(** ** What classification adds *)

Lemma processEntry_none (r : Reporter) (data : Attempts.t) :
  processEntry r data = None <-> Attempts.results data = [].
Proof.
  unfold processEntry.
  destruct (Attempts.results data) as [|a rs] eqn:E.
  - cbn. tauto.
  - destruct (nth_error (a :: rs) (List.length (a :: rs) - 1)) as [final|] eqn:N.
    + split; [|discriminate].
      destruct (TestResult.status (Attempt.result final));
        try destruct (existsb isFailure (a :: rs) && _); discriminate.
    + apply nth_error_None in N. cbn in N. lia.
Qed.

Lemma processEntries_none (entries : JsMap.t Attempts.t) :
  forall r,
  processEntries r entries = None
  <-> Exists (fun kd => Attempts.results (snd kd) = []) entries.
Proof.
  induction entries as [|[k data] entries IH]; intros r; cbn.
  - split; [discriminate|]. intros H. inversion H.
  - destruct (processEntry r data) as [r1|] eqn:E.
    + rewrite IH. split; [now constructor 2|].
      intros H. inversion H as [? ? H0|? ? H0]; subst; [|exact H0].
      cbn in H0. apply (processEntry_none r) in H0. congruence.
    + split; [|reflexivity]. intros _. constructor 1.
      now apply (processEntry_none r).
Qed.

(** [processTestResults] throws exactly when the map holds an entry
    without any attempt; processing an entry only fails in that way. *)
Theorem classification_throws_only_on_an_empty_entry (r : Reporter) :
  fst (processTestResults r) = None
  <-> Exists (fun kd => Attempts.results (snd kd) = []) (testAttempts r).
Proof. cbn. apply processEntries_none. Qed.

Lemma extend_extend (r : Reporter) (d1 d2 : Counts)
  (f1 f2 : list FailedTest.t) (k1 k2 : list FlakyTest.t) :
  extend (extend r d1 f1 k1) d2 f2 k2
  = extend r (addCounts d1 d2) (f1 ++ f2) (k1 ++ k2).
Proof.
  unfold extend, addCounts. cbn. f_equal.
  - f_equal; lia.
  - now rewrite app_assoc.
  - now rewrite app_assoc.
Qed.

Lemma extend_nothing (r : Reporter) :
  extend r (mkCounts 0 0 0 0 0) [] [] = r.
Proof.
  destruct r as [w st pn [p f s fl t] fs ks m]. unfold extend, addCounts. cbn.
  rewrite !app_nil_r, !Nat.add_0_r. reflexivity.
Qed.

Lemma withCounts_extend (r : Reporter) (k : Classification) :
  withCounts r (tally k (testResults r))
  = extend r (tally k (mkCounts 0 0 0 0 0)) [] [].
Proof.
  destruct r as [w st pn [p f s fl t] fs ks m].
  unfold extend, addCounts, withCounts. cbn. rewrite !app_nil_r.
  destruct k; cbn; rewrite ?Nat.add_0_r, ?Nat.add_1_r; reflexivity.
Qed.

(** What one entry adds does not depend on the state it is added to. *)
Lemma processEntry_extend (data : Attempts.t) (r r' : Reporter) :
  processEntry r data = Some r' ->
  exists d fs ks,
    total d <= 1
    /\ List.length fs = failed d + timedout d
    /\ List.length ks = flaky d
    /\ Forall (fun k => 2 <= FlakyTest.attempts k) ks
    /\ forall s, processEntry s data = Some (extend s d fs ks).
Proof.
  unfold processEntry.
  destruct (nth_error (Attempts.results data)
              (List.length (Attempts.results data) - 1)) as [final|];
    [|discriminate].
  intros _.
  destruct (TestResult.status (Attempt.result final)).
  - destruct (existsb isFailure (Attempts.results data)
              && (1 <? List.length (Attempts.results data))) eqn:E.
    + apply andb_true_iff in E as [_ Hl]. apply Nat.ltb_lt in Hl.
      exists (tally Flaky (mkCounts 0 0 0 0 0)), [],
        [FlakyTest.mk (TestCase.title (Attempts.test data))
           (List.length (Attempts.results data))].
      repeat split; cbn; try lia.
      * constructor; [cbn; lia|constructor].
      * intros s. change (incFlaky (testResults s)) with (tally Flaky (testResults s)); rewrite (withCounts_extend s Flaky).
        unfold pushFlaky, extend. cbn. now rewrite !app_nil_r.
    + exists (tally Passed (mkCounts 0 0 0 0 0)), [], [].
      repeat split; cbn; try lia; [constructor|].
      intros s. now change (incPassed (testResults s)) with (tally Passed (testResults s)); rewrite (withCounts_extend s Passed).
  - exists (tally Failed (mkCounts 0 0 0 0 0)),
      [failureDetail (Attempts.test data) (Attempt.result final)], [].
    repeat split; cbn; try lia; [constructor|].
    intros s. rewrite captureFailedTest_detail; change (incFailed (testResults s)) with (tally Failed (testResults s)); rewrite (withCounts_extend s Failed).
    unfold pushFailed, extend. cbn. now rewrite !app_nil_r.
  - exists (tally TimedOut (mkCounts 0 0 0 0 0)),
      [failureDetail (Attempts.test data) (Attempt.result final)], [].
    repeat split; cbn; try lia; [constructor|].
    intros s. rewrite captureFailedTest_detail; change (incTimedout (testResults s)) with (tally TimedOut (testResults s)); rewrite (withCounts_extend s TimedOut).
    unfold pushFailed, extend. cbn. now rewrite !app_nil_r.
  - exists (tally Skipped (mkCounts 0 0 0 0 0)), [], [].
    repeat split; cbn; try lia; [constructor|].
    intros s. now change (incSkipped (testResults s)) with (tally Skipped (testResults s)); rewrite (withCounts_extend s Skipped).
  - exists (mkCounts 0 0 0 0 0), [], [].
    repeat split; cbn; try lia; [constructor|].
    intros s. now rewrite extend_nothing.
Qed.

Lemma processEntries_extend (entries : JsMap.t Attempts.t) :
  forall r r', processEntries r entries = Some r' ->
  exists d fs ks,
    total d <= List.length entries
    /\ List.length fs = failed d + timedout d
    /\ List.length ks = flaky d
    /\ Forall (fun k => 2 <= FlakyTest.attempts k) ks
    /\ forall s, processEntries s entries = Some (extend s d fs ks).
Proof.
  induction entries as [|[k data] entries IH]; intros r r' H.
  - exists (mkCounts 0 0 0 0 0), [], []. cbn.
    repeat split; try lia; [constructor|].
    intros s. now rewrite extend_nothing.
  - cbn [processEntries] in H.
    destruct (processEntry r data) as [r1|] eqn:E1; [|discriminate].
    destruct (processEntry_extend data r r1 E1)
      as (d1 & f1 & k1 & T1 & L1 & K1 & A1 & S1).
    destruct (IH r1 r' H) as (d2 & f2 & k2 & T2 & L2 & K2 & A2 & S2).
    exists (addCounts d1 d2), (f1 ++ f2), (k1 ++ k2).
    repeat split.
    + destruct d1, d2. unfold total, addCounts in *. cbn in *. lia.
    + rewrite length_app, L1, L2. destruct d1, d2. cbn. lia.
    + rewrite length_app, K1, K2. destruct d1, d2. cbn. lia.
    + apply Forall_app. now split.
    + intros s. cbn [processEntries]. rewrite S1, S2.
      now rewrite extend_extend.
Qed.

(** After the classification of a run the two detail lists agree with
    the counts: there is one failure record per test counted as Failed or
    TimedOut and one flaky record per test counted as Flaky, every flaky
    record reports at least two attempts, and the store is left as it
    was. *)
Theorem detail_lists_match_the_counts (env : Env) (name : jsstring)
  (events : list (TestCase.t * TestResult.t)) :
  exists r',
    fst (processTestResults (record (newReporter env name) events)) = Some r'
    /\ List.length (failedTests r')
       = failed (testResults r') + timedout (testResults r')
    /\ List.length (flakyTests r') = flaky (testResults r')
    /\ Forall (fun k => 2 <= FlakyTest.attempts k) (flakyTests r')
    /\ testAttempts r' = testAttempts (record (newReporter env name) events).
Proof.
  destruct (run_total env name events) as (r' & E & _).
  exists r'. split; [exact E|]. cbn [processTestResults fst] in E.
  destruct (processEntries_extend _ _ _ E) as (d & fs & ks & _ & L & K & A & S).
  rewrite S in E. injection E as <-.
  destruct (record_store events (newReporter env name))
    as (_ & _ & _ & _ & _ & Hc & Hf & Hk).
  unfold extend. cbn [failedTests flakyTests testResults testAttempts].
  rewrite Hc, Hf, Hk. cbn [newReporter testResults failedTests flakyTests app].
  destruct d. cbn in *. repeat split; auto.
Qed.

(** Classification adds to what the reporter holds: it never resets the
    counts or the detail lists.  A second call of [processTestResults]
    succeeds when the first did, and adds the same counts and the same
    detail records once more. *)
Theorem classification_is_cumulative (r r1 : Reporter)
  (Hfirst : fst (processTestResults r) = Some r1) :
  exists d fs ks,
    r1 = extend r d fs ks
    /\ fst (processTestResults r1) = Some (extend r1 d fs ks)
    /\ testResults (extend r1 d fs ks)
       = addCounts (addCounts (testResults r) d) d
    /\ failedTests (extend r1 d fs ks) = (failedTests r ++ fs) ++ fs
    /\ flakyTests (extend r1 d fs ks) = (flakyTests r ++ ks) ++ ks.
Proof.
  cbn [processTestResults fst] in *.
  destruct (processEntries_extend _ _ _ Hfirst) as (d & fs & ks & _ & _ & _ & _ & S).
  exists d, fs, ks.
  assert (E : r1 = extend r d fs ks) by (rewrite S in Hfirst; congruence).
  split; [exact E|]. subst r1. cbn [extend testAttempts].
  split; [apply S|]. repeat split.
Qed.

Lemma classification_is_cumulative_witness :
  exists d fs ks,
    extend (record Sample.fresh Sample.scenario) (mkCounts 3 1 0 1 0)
      [failureDetail (Sample.test "e") (Sample.ko 1)]
      [FlakyTest.mk (lit "d") 2]
    = extend (record Sample.fresh Sample.scenario) d fs ks
    /\ fst (processTestResults
              (extend (record Sample.fresh Sample.scenario)
                 (mkCounts 3 1 0 1 0)
                 [failureDetail (Sample.test "e") (Sample.ko 1)]
                 [FlakyTest.mk (lit "d") 2]))
       = Some (extend
                 (extend (record Sample.fresh Sample.scenario)
                    (mkCounts 3 1 0 1 0)
                    [failureDetail (Sample.test "e") (Sample.ko 1)]
                    [FlakyTest.mk (lit "d") 2])
                 d fs ks)
    /\ testResults
         (extend
            (extend (record Sample.fresh Sample.scenario)
               (mkCounts 3 1 0 1 0)
               [failureDetail (Sample.test "e") (Sample.ko 1)]
               [FlakyTest.mk (lit "d") 2])
            d fs ks)
       = addCounts
           (addCounts (testResults (record Sample.fresh Sample.scenario)) d) d
    /\ failedTests
         (extend
            (extend (record Sample.fresh Sample.scenario)
               (mkCounts 3 1 0 1 0)
               [failureDetail (Sample.test "e") (Sample.ko 1)]
               [FlakyTest.mk (lit "d") 2])
            d fs ks)
       = (failedTests (record Sample.fresh Sample.scenario) ++ fs) ++ fs
    /\ flakyTests
         (extend
            (extend (record Sample.fresh Sample.scenario)
               (mkCounts 3 1 0 1 0)
               [failureDetail (Sample.test "e") (Sample.ko 1)]
               [FlakyTest.mk (lit "d") 2])
            d fs ks)
       = (flakyTests (record Sample.fresh Sample.scenario) ++ ks) ++ ks.
Proof.
  apply (classification_is_cumulative
           (record Sample.fresh Sample.scenario)).
  vm_compute. reflexivity.
Defined.

(** ** Durations *)

(** [formatDuration] on an elapsed time of [ms] milliseconds (an integer
    below 2^53, on which the division and the rounding down of the source
    are exact).  For [ms >= 0] the whole seconds are split into hours,
    minutes below 60 and seconds below 60; hours are shown from one hour
    on, minutes from one minute on, seconds always.  For [ms < 0] (the
    clock went back) the text is the negative number of seconds, rounded
    down, and nothing else. *)
Theorem formatDuration_parts (ms : Z) :
  ((0 <= ms < 2 ^ 53)%Z ->
     let t := (ms / 1000)%Z in
     let h := (t / 3600)%Z in
     let m := ((t / 60) mod 60)%Z in
     let s := (t mod 60)%Z in
     (t = 3600 * h + 60 * m + s /\ 0 <= m < 60 /\ 0 <= s < 60)%Z
     /\ ((3600 <= t)%Z ->
         formatDuration ms
         = Js.ofZ h ++ lit "h " ++ Js.ofZ m ++ lit "m " ++ Js.ofZ s ++ lit "s")
     /\ ((60 <= t < 3600)%Z ->
         formatDuration ms = Js.ofZ m ++ lit "m " ++ Js.ofZ s ++ lit "s")
     /\ ((t < 60)%Z -> formatDuration ms = Js.ofZ s ++ lit "s"))
  /\ ((- 2 ^ 53 < ms < 0)%Z ->
      (ms / 1000 < 0)%Z
      /\ formatDuration ms = Js.ofZ (ms / 1000) ++ lit "s").
Proof.
  split.
  - intros [H0 _]. cbv zeta.
    set (t := (ms / 1000)%Z).
    assert (Ht : (0 <= t)%Z) by (subst t; apply Z.div_pos; lia).
    assert (Hh : (t / 60 / 60 = t / 3600)%Z)
      by (rewrite Z.div_div; [reflexivity|lia|lia]).
    assert (Hm := Z.mod_pos_bound (t / 60) 60 ltac:(lia)).
    assert (Hs := Z.mod_pos_bound t 60 ltac:(lia)).
    assert (E1 := Z.div_mod t 60 ltac:(lia)).
    assert (E2 := Z.div_mod (t / 60) 60 ltac:(lia)).
    assert (Hq : (0 <= t / 60)%Z) by (apply Z.div_pos; lia).
    assert (Hr1 : Z.rem (t / 60) 60 = ((t / 60) mod 60)%Z)
      by (apply Z.rem_mod_nonneg; lia).
    assert (Hr2 : Z.rem t 60 = (t mod 60)%Z)
      by (apply Z.rem_mod_nonneg; lia).
    split; [rewrite <- Hh; repeat split; lia|].
    unfold formatDuration. fold t. rewrite Hh, Hr1, Hr2.
    repeat split.
    + intros H. destruct (Z.ltb_spec 0 (t / 3600)); [reflexivity|].
      assert (t / 3600 = 0)%Z by (rewrite <- Hh in *; lia).
      assert (t < 3600)%Z
        by (apply Z.div_small_iff in H2; lia). lia.
    + intros [Hlo Hhi].
      assert (Hz : (t / 3600 = 0)%Z) by (apply Z.div_small; lia).
      rewrite Hz. cbn [Z.ltb Z.compare].
      assert (Hmin : (t / 60 < 60)%Z)
        by (apply Z.div_lt_upper_bound; lia).
      assert (Hpos : (1 <= t / 60)%Z)
        by (apply Z.div_le_lower_bound; lia).
      destruct (Z.ltb_spec 0 (t / 60)); [|lia].
      now rewrite (Z.mod_small (t / 60) 60) by lia.
    + intros Hlt.
      assert (Hz : (t / 3600 = 0)%Z) by (apply Z.div_small; lia).
      assert (Hz' : (t / 60 = 0)%Z) by (apply Z.div_small; lia).
      rewrite Hz, Hz'. cbn [Z.ltb Z.compare].
      now rewrite Z.mod_small by lia.
  - intros [_ Hneg].
    assert (Ht : (ms / 1000 < 0)%Z) by (apply Z.div_lt_upper_bound; lia).
    split; [exact Ht|]. unfold formatDuration.
    assert (H1 : (ms / 1000 / 60 < 0)%Z)
      by (apply Z.div_lt_upper_bound; lia).
    assert (H2 : (ms / 1000 / 60 / 60 < 0)%Z)
      by (apply Z.div_lt_upper_bound; lia).
    destruct (Z.ltb_spec 0 (ms / 1000 / 60 / 60)); [lia|].
    destruct (Z.ltb_spec 0 (ms / 1000 / 60)); [lia|]. reflexivity.
Qed.

(** The theorem at 3 725 000 ms: one hour, two minutes, five seconds. *)
Lemma formatDuration_parts_witness :
  formatDuration 3725000
  = Js.ofZ 1 ++ lit "h " ++ Js.ofZ 2 ++ lit "m " ++ Js.ofZ 5 ++ lit "s".
Proof.
  apply (proj1 (proj2 (proj1 (formatDuration_parts 3725000)
                         ltac:(cbn; lia)))).
  cbn. lia.
Defined.

(** ** Truncation for any length *)

Lemma substring_negative_end (s : jsstring) (e : Z) :
  (e < 0)%Z -> Js.substring s 0 e = [].
Proof.
  intros He. unfold Js.substring.
  set (len := Z.of_nat (List.length s)).
  assert (0 <= len)%Z by (subst len; lia).
  replace (Z.min (Z.max 0 0) len) with 0%Z by lia.
  replace (Z.min (Z.max e 0) len) with 0%Z by lia.
  reflexivity.
Qed.

Lemma truncateError_length (error : jsstring) (maxLength : Z) :
  (3 <= maxLength)%Z ->
  (Z.of_nat (List.length (truncateError error maxLength)) <= maxLength)%Z.
Proof.
  intros H3.
  destruct (Z.le_gt_cases (Z.of_nat (List.length error)) maxLength) as [Hle|Hgt].
  - unfold truncateError.
    destruct (Z.leb_spec (Z.of_nat (List.length error)) maxLength); lia.
  - destruct (@truncateError_long error maxLength H3 ltac:(lia)) as [_ L]. lia.
Qed.

(** [truncateError] for any limit.  The result is the message itself when
    it fits; otherwise it is the first max(limit - 3, 0) code units of the
    message followed by the three dots (something is cut off, unless the
    limit is negative).  With a limit of at least 3 the result never
    exceeds the limit; with a smaller limit (negative ones included) a
    message that does not fit becomes the three dots alone, which exceed
    the limit. *)
Theorem truncateError_any_limit (error : jsstring) (maxLength : Z) :
  ((Z.of_nat (List.length error) <= maxLength)%Z ->
     truncateError error maxLength = error)
  /\ ((maxLength < Z.of_nat (List.length error))%Z ->
      exists kept rest,
        error = kept ++ rest /\ ((0 <= maxLength)%Z -> rest <> [])
        /\ truncateError error maxLength = kept ++ lit "..."
        /\ List.length kept = Z.to_nat (maxLength - 3))
  /\ ((3 <= maxLength)%Z ->
      (Z.of_nat (List.length (truncateError error maxLength)) <= maxLength)%Z)
  /\ ((maxLength < 3)%Z -> (maxLength < Z.of_nat (List.length error))%Z ->
      truncateError error maxLength = lit "...").
Proof.
  split; [|split; [|split]].
  - intros H. unfold truncateError.
    destruct (Z.leb_spec (Z.of_nat (List.length error)) maxLength);
      [reflexivity|lia].
  - intros H. unfold truncateError.
    destruct (Z.leb_spec (Z.of_nat (List.length error)) maxLength); [lia|].
    exists (firstn (Z.to_nat (maxLength - 3)) error),
      (skipn (Z.to_nat (maxLength - 3)) error).
    split; [now rewrite firstn_skipn|]. split.
    + intros Hpos Hnil. apply (f_equal (@List.length _)) in Hnil.
      rewrite length_skipn in Hnil. cbn [List.length] in Hnil.
      unfold jsstring, char16 in *. lia.
    + split; [|rewrite length_firstn; apply Nat.min_l;
               unfold jsstring, char16 in *; lia].
      destruct (Z.le_gt_cases 0 (maxLength - 3)).
      * now rewrite substring_from_0.
      * rewrite substring_negative_end by lia.
        now replace (Z.to_nat (maxLength - 3)) with 0%nat by lia.
  - apply truncateError_length.
  - intros H3 Hlong. unfold truncateError.
    destruct (Z.leb_spec (Z.of_nat (List.length error)) maxLength); [lia|].
    destruct (Z.le_gt_cases 0 (maxLength - 3)).
    + rewrite substring_from_0 by lia.
      now replace (Z.to_nat (maxLength - 3)) with 0%nat by lia.
    + now rewrite substring_negative_end by lia.
Qed.

(** The theorem at a limit of 2 and a message of 250 code units. *)
Lemma truncateError_any_limit_witness :
  truncateError Sample.longError 2 = lit "...".
Proof.
  apply (proj2 (proj2 (proj2 (truncateError_any_limit Sample.longError 2)))).
  - lia.
  - unfold Sample.longError. rewrite repeat_length. lia.
Defined.

(** ** The optional blocks of the card *)

Lemma length_mapi_from {A B : Type} (f : A -> nat -> B) (l : list A) :
  forall i, List.length (mapi_from i f l) = List.length l.
Proof. induction l as [|x l IH]; intros i; cbn; now rewrite ?IH. Qed.

Lemma nth_error_mapi_from {A B : Type} (f : A -> nat -> B) (l : list A) :
  forall i j,
  nth_error (mapi_from i f l) j
  = option_map (fun x => f x (i + j)) (nth_error l j).
Proof.
  induction l as [|x l IH]; intros i j; destruct j as [|j]; cbn;
    try reflexivity.
  - now rewrite Nat.add_0_r.
  - rewrite IH. now rewrite Nat.add_succ_r.
Qed.

Lemma In_mapi_from {A B : Type} (f : A -> nat -> B) (l : list A) (y : B) :
  forall i, In y (mapi_from i f l) -> exists x j, In x l /\ y = f x j.
Proof.
  induction l as [|x l IH]; intros i; cbn; [tauto|].
  intros [<-|H].
  - exists x, i. auto.
  - destruct (IH _ H) as (x' & j & Hin & ->). exists x', j. auto.
Qed.

(** The single CI fact a test of the environment contributes. *)
Lemma pushIf_cases (cond : bool) (f : Fact.t) :
  pushIf cond f = [] \/ pushIf cond f = [f].
Proof. destruct cond; cbn; auto. Qed.

Lemma stripPrefix_app (pat rest : jsstring) :
  stripPrefix pat (pat ++ rest) = Some rest.
Proof.
  induction pat as [|p pat IH]; cbn; [now destruct rest|].
  now rewrite N.eqb_refl.
Qed.

Lemma stripPrefix_some (pat s rest : jsstring) :
  stripPrefix pat s = Some rest -> s = pat ++ rest.
Proof.
  revert s. induction pat as [|p pat IH]; intros s; cbn.
  - destruct s; congruence.
  - destruct s as [|c s]; [discriminate|].
    destruct (N.eqb_spec p c); [|discriminate].
    intros H. apply IH in H. subst. reflexivity.
Qed.

Lemma replaceFirst_prefix (pat rep rest : jsstring) :
  replaceFirst pat rep (pat ++ rest) = rep ++ rest.
Proof.
  destruct (pat ++ rest) as [|c s] eqn:E; cbn [replaceFirst];
    rewrite <- E, stripPrefix_app; reflexivity.
Qed.

Lemma replaceFirst_absent (pat rep s : jsstring) :
  (forall pre post, s <> pre ++ pat ++ post) ->
  replaceFirst pat rep s = s.
Proof.
  induction s as [|c s IH]; intros Habs.
  - cbn [replaceFirst]. destruct (stripPrefix pat []) as [rest|] eqn:E;
      [|reflexivity].
    apply stripPrefix_some in E. exfalso. apply (Habs [] rest). exact E.
  - cbn [replaceFirst]. destruct (stripPrefix pat (c :: s)) as [rest|] eqn:E.
    + apply stripPrefix_some in E. exfalso. apply (Habs [] rest). exact E.
    + f_equal. apply IH. intros pre post Hs.
      apply (Habs (c :: pre) post). cbn. now rewrite Hs.
Qed.

(** The sections of the card, block by block. *)
Lemma card_parts (r : Reporter) (env : Env) (duration timestamp : jsstring) :
  exists head,
    MessageCard.sections (buildMessageCard r env duration timestamp)
    = head
      :: (if (0 <? List.length (getCIMetadata env))%nat
          then [CardSection.mk (Some (emojiWrench ++ lit " Environment")) None
                  (Some (getCIMetadata env)) None true]
          else [])
      ++ (if (0 <? List.length (failedTests r))%nat
          then
            CardSection.mk
              (Some (emojiCross ++ lit " Failed Tests ("
                     ++ Js.ofNat (List.length (failedTests r)) ++ lit ")"))
              None
              (Some (mapi
                       (fun test index =>
                          Fact.mk
                            (Js.ofNat (index + 1) ++ lit ". "
                             ++ FailedTest.title test)
                            (truncateError (FailedTest.error test)
                               ERROR_TRUNCATE_LENGTH))
                       (firstn 10 (failedTests r))))
              None true
            :: (if (10 <? List.length (failedTests r))%nat
                then [CardSection.mk None None None
                        (Some (lit "_... and "
                               ++ Js.ofNat (List.length (failedTests r) - 10)
                               ++ lit " more failed tests. Check the full report for details._"))
                        true]
                else [])
          else [])
      ++ (if (0 <? List.length (flakyTests r))%nat
          then [CardSection.mk
                  (Some (emojiWarning ++ lit " Flaky Tests ("
                         ++ Js.ofNat (List.length (flakyTests r)) ++ lit ")"))
                  None
                  (Some (mapi
                           (fun test index =>
                              Fact.mk
                                (Js.ofNat (index + 1) ++ lit ". "
                                 ++ FlakyTest.title test)
                                (lit "Passed after "
                                 ++ Js.ofNat (FlakyTest.attempts test)
                                 ++ lit " attempts"))
                           (firstn 5 (flakyTests r))))
                  None true]
          else [])
    /\ List.length (sectionFacts head) = 6
    /\ CardSection.text head = None.
Proof.
  eexists. split; [|split].
  - unfold buildMessageCard. cbn [MessageCard.sections app].
    unfold MAX_FAILED_TESTS_DISPLAY, MAX_FLAKY_TESTS_DISPLAY, Js.slice0.
    destruct (0 <? List.length (failedTests r))%nat; reflexivity.
  - reflexivity.
  - reflexivity.
Qed.

(** Which blocks the card has.  After the summary section with its six
    facts come, in this order and each only when it has something to
    show: the Environment section with the CI facts, the section of the
    failed tests, the note on the failed tests that are not shown (only
    when there are more than ten), and the section of the flaky tests.  So
    the card has between one and five sections.  The action link is
    present exactly when the report address is set, and then it is the one
    link to that address. *)
Theorem card_blocks (r : Reporter) (env : Env) (duration timestamp : jsstring) :
  let card := buildMessageCard r env duration timestamp in
  let n := List.length (failedTests r) in
  let k := List.length (flakyTests r) in
  (exists head envS failedS noteS flakyS,
     MessageCard.sections card = head :: envS ++ failedS ++ noteS ++ flakyS
     /\ List.length (sectionFacts head) = 6
     /\ (getCIMetadata env = [] /\ envS = []
         \/ getCIMetadata env <> []
            /\ exists s, envS = [s]
                 /\ CardSection.facts s = Some (getCIMetadata env))
     /\ (n = 0 /\ failedS = []
         \/ 0 < n
            /\ exists s, failedS = [s]
                 /\ List.length (sectionFacts s) = Nat.min n 10)
     /\ (n <= 10 /\ noteS = []
         \/ 10 < n
            /\ exists s, noteS = [s] /\ CardSection.facts s = None
                 /\ CardSection.text s
                    = Some (lit "_... and " ++ Js.ofNat (n - 10)
                            ++ lit " more failed tests. Check the full report for details._"))
     /\ (k = 0 /\ flakyS = []
         \/ 0 < k
            /\ exists s, flakyS = [s]
                 /\ List.length (sectionFacts s) = Nat.min k 5))
  /\ 1 <= List.length (MessageCard.sections card) <= 5
  /\ (MessageCard.potentialAction card = None
      <-> Js.truthy (env (lit "PLAYWRIGHT_REPORT_URL")) = false)
  /\ (forall actions, MessageCard.potentialAction card = Some actions ->
      exists u,
        env (lit "PLAYWRIGHT_REPORT_URL") = Some u /\ u <> []
        /\ actions
           = [Action.mk (lit "OpenUri") (emojiChart ++ lit " View Report")
                [Target.mk (lit "default") u]]).
Proof.
  cbv zeta.
  destruct (card_parts r env duration timestamp) as (head & E & H6 & _).
  assert (Hlayout :
    exists head envS failedS noteS flakyS,
      MessageCard.sections (buildMessageCard r env duration timestamp)
      = head :: envS ++ failedS ++ noteS ++ flakyS
      /\ List.length (sectionFacts head) = 6
      /\ (getCIMetadata env = [] /\ envS = []
          \/ getCIMetadata env <> []
             /\ exists s, envS = [s]
                  /\ CardSection.facts s = Some (getCIMetadata env))
      /\ (List.length (failedTests r) = 0 /\ failedS = []
          \/ 0 < List.length (failedTests r)
             /\ exists s, failedS = [s]
                  /\ List.length (sectionFacts s)
                     = Nat.min (List.length (failedTests r)) 10)
      /\ (List.length (failedTests r) <= 10 /\ noteS = []
          \/ 10 < List.length (failedTests r)
             /\ exists s, noteS = [s] /\ CardSection.facts s = None
                  /\ CardSection.text s
                     = Some (lit "_... and "
                             ++ Js.ofNat (List.length (failedTests r) - 10)
                             ++ lit " more failed tests. Check the full report for details._"))
      /\ (List.length (flakyTests r) = 0 /\ flakyS = []
          \/ 0 < List.length (flakyTests r)
             /\ exists s, flakyS = [s]
                  /\ List.length (sectionFacts s)
                     = Nat.min (List.length (flakyTests r)) 5)).
  { exists head.
    eexists (if (0 <? List.length (getCIMetadata env))%nat then _ else _).
    eexists (if (0 <? List.length (failedTests r))%nat then [_] else []).
    eexists (if (10 <? List.length (failedTests r))%nat then _ else _).
    eexists.
    split.
    { rewrite E. f_equal. f_equal.
      destruct (Nat.ltb_spec 0 (List.length (failedTests r))).
      - reflexivity.
      - destruct (Nat.ltb_spec 10 (List.length (failedTests r))); [lia|].
        reflexivity. }
    split; [exact H6|]. split; [|split; [|split]].
    - destruct (getCIMetadata env) as [|f fs]; cbn [List.length Nat.ltb Nat.leb].
      + left. now split.
      + right. split; [discriminate|]. eexists. split; reflexivity.
    - destruct (Nat.ltb_spec 0 (List.length (failedTests r))).
      + right. split; [lia|]. eexists. split; [reflexivity|].
        unfold sectionFacts, mapi. cbn [CardSection.facts].
        now rewrite length_mapi_from, length_firstn, Nat.min_comm.
      + left. split; [lia|reflexivity].
    - destruct (Nat.ltb_spec 10 (List.length (failedTests r))).
      + right. split; [lia|]. eexists. repeat split.
      + left. split; [lia|reflexivity].
    - destruct (Nat.ltb_spec 0 (List.length (flakyTests r))).
      + right. split; [lia|]. eexists. split; [reflexivity|].
        unfold sectionFacts, mapi. cbn [CardSection.facts].
        now rewrite length_mapi_from, length_firstn, Nat.min_comm.
      + left. split; [lia|reflexivity]. }
  split; [exact Hlayout|]. split; [|split].
  - rewrite E. cbn [List.length]. rewrite !length_app.
    destruct (0 <? List.length (getCIMetadata env))%nat,
      (0 <? List.length (failedTests r))%nat,
      (10 <? List.length (failedTests r))%nat,
      (0 <? List.length (flakyTests r))%nat; cbn; lia.
  - unfold buildMessageCard, getActionButtons. cbn [MessageCard.potentialAction].
    destruct (env (lit "PLAYWRIGHT_REPORT_URL")) as [[|c u]|]; cbn;
      split; congruence.
  - intros actions. unfold buildMessageCard, getActionButtons.
    cbn [MessageCard.potentialAction].
    destruct (env (lit "PLAYWRIGHT_REPORT_URL")) as [[|c u]|]; cbn;
      try discriminate.
    intros H. injection H as <-. exists (c :: u).
    repeat split. discriminate.
Qed.

(** The block of the failed tests.  When some test failed, the card has a
    section titled with the number of failed tests; it shows the first ten
    of them, in the order of [failedTests], each as its rank, a dot and the
    title, with the error message cut to at most 200 code units.  When
    there are more than ten, a note tells how many are not shown. *)
Theorem failed_tests_block (r : Reporter) (env : Env)
  (duration timestamp : jsstring)
  (Hsome : 0 < List.length (failedTests r)) :
  let card := buildMessageCard r env duration timestamp in
  let n := List.length (failedTests r) in
  exists s,
    In s (MessageCard.sections card)
    /\ CardSection.activityTitle s
       = Some (emojiCross ++ lit " Failed Tests (" ++ Js.ofNat n ++ lit ")")
    /\ List.length (sectionFacts s) = Nat.min n 10
    /\ (forall i test, i < 10 -> nth_error (failedTests r) i = Some test ->
        nth_error (sectionFacts s) i
        = Some (Fact.mk
                  (Js.ofNat (i + 1) ++ lit ". " ++ FailedTest.title test)
                  (truncateError (FailedTest.error test) 200)))
    /\ Forall (fun f => List.length (Fact.value f) <= 200) (sectionFacts s)
    /\ (10 < n ->
        exists note,
          In note (MessageCard.sections card)
          /\ CardSection.facts note = None
          /\ CardSection.text note
             = Some (lit "_... and " ++ Js.ofNat (n - 10)
                     ++ lit " more failed tests. Check the full report for details._")).
Proof.
  cbv zeta.
  destruct (card_parts r env duration timestamp) as (head & E & _).
  rewrite E. apply Nat.ltb_lt in Hsome. rewrite Hsome.
  eexists. split.
  { right. apply in_or_app. right. apply in_or_app. left. left. reflexivity. }
  split; [reflexivity|].
  - unfold sectionFacts, mapi. cbn [CardSection.facts].
    split; [|split; [|split]].
    + now rewrite length_mapi_from, length_firstn, Nat.min_comm.
    + intros i test Hi Hnth.
      rewrite nth_error_mapi_from, nth_error_firstn.
      apply Nat.ltb_lt in Hi. rewrite Hi, Hnth. reflexivity.
    + apply Forall_forall. intros f Hf.
      apply In_mapi_from in Hf as (x & j & _ & ->). cbn [Fact.value].
      pose proof (truncateError_length (FailedTest.error x) 200 ltac:(lia)).
      unfold ERROR_TRUNCATE_LENGTH. lia.
    + intros Hmany. apply Nat.ltb_lt in Hmany. rewrite Hmany.
      eexists. split.
      { right. apply in_or_app. right. apply in_or_app. left.
        right. left. reflexivity. }
      split; reflexivity.
Qed.

(** The theorem at a reporter with twelve failed tests. *)
Lemma failed_tests_block_witness :
  exists s,
    In s (MessageCard.sections
            (buildMessageCard Inputs.manyFailures Inputs.ci (lit "1s")
               (lit "now")))
    /\ CardSection.activityTitle s
       = Some (emojiCross ++ lit " Failed Tests ("
               ++ Js.ofNat (List.length (failedTests Inputs.manyFailures))
               ++ lit ")")
    /\ List.length (sectionFacts s)
       = Nat.min (List.length (failedTests Inputs.manyFailures)) 10
    /\ (forall i test, i < 10 ->
        nth_error (failedTests Inputs.manyFailures) i = Some test ->
        nth_error (sectionFacts s) i
        = Some (Fact.mk
                  (Js.ofNat (i + 1) ++ lit ". " ++ FailedTest.title test)
                  (truncateError (FailedTest.error test) 200)))
    /\ Forall (fun f => List.length (Fact.value f) <= 200) (sectionFacts s)
    /\ (10 < List.length (failedTests Inputs.manyFailures) ->
        exists note,
          In note (MessageCard.sections
                     (buildMessageCard Inputs.manyFailures Inputs.ci
                        (lit "1s") (lit "now")))
          /\ CardSection.facts note = None
          /\ CardSection.text note
             = Some (lit "_... and "
                     ++ Js.ofNat
                          (List.length (failedTests Inputs.manyFailures) - 10)
                     ++ lit " more failed tests. Check the full report for details._")).
Proof.
  apply (failed_tests_block Inputs.manyFailures Inputs.ci (lit "1s")
           (lit "now")).
  cbn. lia.
Defined.

(** The block of the flaky tests.  When some test was flaky, the card has
    a section titled with the number of flaky tests; it shows the first
    five of them with their attempt counts.  The flaky tests beyond the
    fifth are left out without a word: the only section of the card that
    carries a text is the note on failed tests, which needs more than ten
    failed tests. *)
Theorem flaky_tests_block (r : Reporter) (env : Env)
  (duration timestamp : jsstring)
  (Hsome : 0 < List.length (flakyTests r)) :
  let card := buildMessageCard r env duration timestamp in
  let k := List.length (flakyTests r) in
  (exists s,
     In s (MessageCard.sections card)
     /\ CardSection.activityTitle s
        = Some (emojiWarning ++ lit " Flaky Tests (" ++ Js.ofNat k ++ lit ")")
     /\ List.length (sectionFacts s) = Nat.min k 5
     /\ (forall i test, i < 5 -> nth_error (flakyTests r) i = Some test ->
         nth_error (sectionFacts s) i
         = Some (Fact.mk
                   (Js.ofNat (i + 1) ++ lit ". " ++ FlakyTest.title test)
                   (lit "Passed after " ++ Js.ofNat (FlakyTest.attempts test)
                    ++ lit " attempts"))))
  /\ (forall s, In s (MessageCard.sections card) ->
      CardSection.text s <> None -> 10 < List.length (failedTests r)).
Proof.
  cbv zeta.
  destruct (card_parts r env duration timestamp) as (head & E & _ & Htext).
  rewrite E. apply Nat.ltb_lt in Hsome. rewrite Hsome. split.
  - eexists. split.
    { right. apply in_or_app. right. apply in_or_app. right. left.
      reflexivity. }
    split; [reflexivity|].
    + unfold sectionFacts, mapi. cbn [CardSection.facts]. split.
      * now rewrite length_mapi_from, length_firstn, Nat.min_comm.
      * intros i test Hi Hnth.
        rewrite nth_error_mapi_from, nth_error_firstn.
        apply Nat.ltb_lt in Hi. rewrite Hi, Hnth. reflexivity.
  - intros s [<-|Hin] Hs; [congruence|].
    apply in_app_or in Hin as [Hin|Hin].
    { destruct (0 <? List.length (getCIMetadata env))%nat;
        [destruct Hin as [<-|[]]; cbn in Hs; congruence|destruct Hin]. }
    apply in_app_or in Hin as [Hin|Hin].
    + destruct (0 <? List.length (failedTests r))%nat; [|destruct Hin].
      destruct Hin as [<-|Hin]; [cbn in Hs; congruence|].
      destruct (Nat.ltb_spec 10 (List.length (failedTests r)));
        [assumption|destruct Hin].
    + destruct Hin as [<-|[]]. cbn in Hs. congruence.
Qed.

(** The theorem at a reporter with six flaky tests and twelve failed
    ones. *)
Lemma flaky_tests_block_witness :
  exists s,
    In s (MessageCard.sections
            (buildMessageCard Inputs.manyFailures Inputs.ci (lit "1s")
               (lit "now")))
    /\ CardSection.activityTitle s
       = Some (emojiWarning ++ lit " Flaky Tests ("
               ++ Js.ofNat (List.length (flakyTests Inputs.manyFailures))
               ++ lit ")")
    /\ List.length (sectionFacts s)
       = Nat.min (List.length (flakyTests Inputs.manyFailures)) 5
    /\ (forall i test, i < 5 ->
        nth_error (flakyTests Inputs.manyFailures) i = Some test ->
        nth_error (sectionFacts s) i
        = Some (Fact.mk
                  (Js.ofNat (i + 1) ++ lit ". " ++ FlakyTest.title test)
                  (lit "Passed after " ++ Js.ofNat (FlakyTest.attempts test)
                   ++ lit " attempts"))).
Proof.
  apply (proj1 (flaky_tests_block Inputs.manyFailures Inputs.ci (lit "1s")
                  (lit "now") ltac:(cbn; lia))).
Defined.

(** ** CI facts *)

Lemma Forall_pushIf (P : Fact.t -> Prop) (cond : bool) (f : Fact.t) :
  P f -> Forall P (pushIf cond f).
Proof. destruct cond; cbn; auto. Qed.

Lemma length_pushIf (cond : bool) (f : Fact.t) :
  List.length (pushIf cond f) <= 1.
Proof. destruct cond; cbn; lia. Qed.

(** The CI facts.  Without the marker variable of any of the three CI
    systems there is none.  There are never more than nine, named Branch,
    Commit, Build or Pipeline.  On GitHub Actions the commit is the first
    seven code units of the hash, the branch is the ref without a leading
    "refs/heads/", and a ref that does not contain "refs/heads/" (a tag, a
    pull request) is shown as the branch unchanged. *)
Theorem ci_facts (env : Env) :
  (Js.truthy (env (lit "GITHUB_ACTIONS")) = false ->
   Js.truthy (env (lit "JENKINS_HOME")) = false ->
   Js.truthy (env (lit "GITLAB_CI")) = false ->
   getCIMetadata env = [])
  /\ List.length (getCIMetadata env) <= 9
  /\ Forall
       (fun f =>
          Fact.name f = lit "Branch:" \/ Fact.name f = lit "Commit:"
          \/ Fact.name f = lit "Build:" \/ Fact.name f = lit "Pipeline:")
       (getCIMetadata env)
  /\ (Js.truthy (env (lit "GITHUB_ACTIONS")) = true ->
      (forall sha, env (lit "GITHUB_SHA") = Some sha -> sha <> [] ->
         In (Fact.mk (lit "Commit:") (firstn 7 sha)) (getCIMetadata env))
      /\ (forall branch,
            env (lit "GITHUB_REF") = Some (lit "refs/heads/" ++ branch) ->
            In (Fact.mk (lit "Branch:") branch) (getCIMetadata env))
      /\ (forall ref, env (lit "GITHUB_REF") = Some ref -> ref <> [] ->
            (forall pre post, ref <> pre ++ lit "refs/heads/" ++ post) ->
            In (Fact.mk (lit "Branch:") ref) (getCIMetadata env))).
Proof.
  unfold getCIMetadata, envText, envVar.
  split; [|split; [|split; [|intros Hgh; split; [|split]]]].
  - intros -> -> ->. reflexivity.
  - repeat match goal with
           | |- context [pushIf ?c ?f] =>
               let x := fresh "x" in
               let E := fresh "E" in
               pose proof (length_pushIf c f);
               remember (pushIf c f) as x eqn:E; clear E
           end.
    destruct (Js.truthy (env (lit "GITHUB_ACTIONS"))),
      (Js.truthy (env (lit "JENKINS_HOME"))),
      (Js.truthy (env (lit "GITLAB_CI")));
      rewrite ?length_app; cbn [List.length]; lia.
  - repeat (apply Forall_app; split);
      match goal with
      | |- Forall _ (if ?c then _ else _) => destruct c; [|constructor]
      end;
      repeat (apply Forall_app; split); apply Forall_pushIf; cbn; auto.
  - intros sha Hsha Hne. rewrite Hgh, Hsha.
    apply in_or_app. left. apply in_or_app. right. apply in_or_app. left.
    destruct sha as [|c sha]; [contradiction|].
    cbn [Js.truthy pushIf Js.or_else].
    rewrite substring_from_0 by lia. left. reflexivity.
  - intros branch Href. rewrite Hgh, Href.
    apply in_or_app. left. apply in_or_app. left.
    cbn [lit list_ascii_of_string map app Js.truthy pushIf Js.or_else].
    left. f_equal;
      apply (replaceFirst_prefix (lit "refs/heads/") [] branch).
  - intros ref Href Hne Habs. rewrite Hgh, Href.
    apply in_or_app. left. apply in_or_app. left.
    destruct ref as [|c ref]; [contradiction|].
    cbn [Js.truthy pushIf Js.or_else]. left. f_equal.
    now apply replaceFirst_absent.
Qed.

(** The theorem at a GitHub Actions run on the tag v1.2. *)
Lemma ci_facts_witness :
  In (Fact.mk (lit "Branch:") (lit "refs/tags/v1.2"))
    (getCIMetadata Inputs.ci).
Proof.
  apply (proj2 (proj2 (proj2 (proj2 (proj2 (ci_facts Inputs.ci))) eq_refl))
           (lit "refs/tags/v1.2") eq_refl).
  - discriminate.
  - intros pre post H.
    assert (Hin : In 104%N (lit "refs/tags/v1.2")).
    { rewrite H. apply in_or_app. right. apply in_or_app. left.
      cbn. tauto. }
    cbn in Hin. repeat (destruct Hin as [Hin|Hin]; [discriminate|]).
    exact Hin.
Defined.

(** ** Delivery: outcome, reporting, bounds *)

Lemma requests_app (t u : list Event) :
  requests (t ++ u) = requests t ++ requests u.
Proof.
  induction t as [|[l|a url card|ms] t IH]; cbn; now rewrite ?IH.
Qed.

Lemma sends_app (t u : list Event) : sends (t ++ u) = sends t ++ sends u.
Proof.
  induction t as [|[l|a url card|ms] t IH]; cbn; now rewrite ?IH.
Qed.

Lemma waits_app (t u : list Event) : waits (t ++ u) = waits t ++ waits u.
Proof.
  induction t as [|[l|a url card|ms] t IH]; cbn; now rewrite ?IH.
Qed.

Lemma sumZ_app (l l' : list Z) : sumZ (l ++ l') = (sumZ l + sumZ l')%Z.
Proof. induction l as [|x l IH]; cbn [app sumZ]; [reflexivity|lia]. Qed.

Lemma waitTime_range (a : nat) : (0 <= waitTime a <= 5000)%Z.
Proof.
  unfold waitTime, MAX_BACKOFF_MS.
  assert (0 <= 2 ^ (Z.of_nat a - 1))%Z by (apply Z.pow_nonneg; lia).
  lia.
Qed.

Section DeliveryMore.

Variable net : nat -> NetOutcome.
Variable url : jsstring.
Variable card : MessageCard.t.
Variable maxRetries : nat.

Local Abbreviation run := (attemptsFrom net url card maxRetries).

(** Every request goes to the same address with the same card. *)
Lemma run_requests (k : nat) :
  forall i,
  requests (snd (run k i))
  = repeat (url, card) (List.length (sends (snd (run k i)))).
Proof.
  induction k as [|k IH]; intros i; [reflexivity|].
  cbn [attemptsFrom].
  destruct (axiosPost (net i)) as [e|status].
  - cbn [snd]. rewrite !requests_app, !sends_app.
    destruct (i <? maxRetries)%nat; cbn; now rewrite IH.
  - destruct ((200 <=? status)%Z && (status <? 300)%Z); [reflexivity|].
    destruct ((400 <=? status)%Z && (status <? 500)%Z); [reflexivity|].
    cbn [snd]. rewrite !requests_app, !sends_app. cbn. now rewrite IH.
Qed.

(** At least one request is made when the budget is not zero. *)
Lemma run_count (k : nat) :
  forall i, exists n,
    Nat.min 1 k <= n <= k /\ sends (snd (run k i)) = seq i n.
Proof.
  induction k as [|k IH]; intros i.
  - exists 0. now cbn.
  - rewrite sends_of_effects.
    destruct (run_step net url card maxRetries k i) as [E _]. rewrite E.
    destruct (IH (S i)) as (n & Hn & Hs). rewrite sends_of_effects in Hs.
    destruct (replyClass (net i)).
    + exists 1. split; [cbn; lia|reflexivity].
    + exists 1. split; [cbn; lia|reflexivity].
    + exists (S n). split; [cbn; lia|]. cbn [flat_map seq app].
      rewrite flat_map_app, Hs. unfold pause.
      destruct (i <? maxRetries)%nat; reflexivity.
    + exists (S n). split; [cbn; lia|]. cbn [flat_map seq app pause].
      now rewrite Hs.
Qed.

(** The waits add up to no more than the backoffs of the attempts before
    the last. *)
Lemma run_waits_sum (k : nat) :
  forall i,
  (0 <= sumZ (waits (snd (run k i)))
   <= sumZ (map waitTime (seq i (maxRetries - i))))%Z.
Proof.
  induction k as [|k IH]; intros i.
  - cbn [attemptsFrom snd waits sumZ].
    induction (seq i (maxRetries - i)) as [|x l IHl]; cbn [map sumZ]; [lia|].
    pose proof (waitTime_range x). lia.
  - assert (Hmono : (sumZ (map waitTime (seq (S i) (maxRetries - S i)))
                     <= sumZ (map waitTime (seq i (maxRetries - i))))%Z).
    { destruct (Nat.ltb_spec i maxRetries).
      - replace (maxRetries - i) with (S (maxRetries - S i)) by lia.
        cbn [seq map sumZ]. pose proof (waitTime_range i). lia.
      - replace (maxRetries - i) with 0 by lia.
        replace (maxRetries - S i) with 0 by lia. cbn. lia. }
    specialize (IH (S i)).
    rewrite waits_of_effects in *.
    destruct (run_step net url card maxRetries k i) as [E _]. rewrite E.
    cbn [flat_map app].
    destruct (replyClass (net i)); cbn [flat_map app sumZ]; try lia.
    + rewrite flat_map_app, sumZ_app. unfold pause.
      destruct (Nat.ltb_spec i maxRetries).
      * replace (maxRetries - i) with (S (maxRetries - S i)) by lia.
        cbn [flat_map app sumZ seq map].
        pose proof (waitTime_range i). lia.
      * cbn [flat_map sumZ]. lia.
    + cbn [pause app]. lia.
Qed.

(** The loop ends with the success return exactly when the first answer
    that stops it, among the attempts it may make, is a success. *)
Lemma run_sent (k : nat) :
  forall i,
  fst (run k i) = ReturnedSent
  <-> exists a,
        i <= a < i + k
        /\ replyClass (net a) = Success2xx
        /\ forall b, i <= b < a ->
             replyClass (net b) = Retryable
             \/ replyClass (net b) = OtherStatus.
Proof.
  induction k as [|k IH]; intros i.
  - cbn. split; [discriminate|]. intros (a & Ha & _). lia.
  - destruct (run_step net url card maxRetries k i) as [_ X]. rewrite X.
    destruct (replyClass (net i)) eqn:Ei.
    + split; [|reflexivity]. intros _. exists i.
      split; [lia|]. split; [exact Ei|]. intros b Hb. lia.
    + split; [discriminate|]. intros (a & Ha & Hs & Hbefore).
      destruct (Nat.eq_dec a i) as [->|Hne]; [congruence|].
      destruct (Hbefore i ltac:(lia)); congruence.
    + rewrite IH. split; intros (a & Ha & Hs & Hbefore).
      * exists a. split; [lia|]. split; [exact Hs|].
        intros b Hb. destruct (Nat.eq_dec b i) as [->|Hne]; [auto|].
        apply Hbefore. lia.
      * destruct (Nat.eq_dec a i) as [->|Hne]; [congruence|].
        exists a. split; [lia|]. split; [exact Hs|].
        intros b Hb. apply Hbefore. lia.
    + rewrite IH. split; intros (a & Ha & Hs & Hbefore).
      * exists a. split; [lia|]. split; [exact Hs|].
        intros b Hb. destruct (Nat.eq_dec b i) as [->|Hne]; [auto|].
        apply Hbefore. lia.
      * destruct (Nat.eq_dec a i) as [->|Hne]; [congruence|].
        exists a. split; [lia|]. split; [exact Hs|].
        intros b Hb. apply Hbefore. lia.
Qed.

(** The last thing a delivery does is to print how it ended. *)
Lemma run_last_line (k : nat) :
  forall i, exists pre line,
    snd (run k i) = pre ++ [Log line]
    /\ match fst (run k i) with
       | ReturnedSent =>
           exists status, line = LogSent status /\ (200 <= status < 300)%Z
       | ReturnedClientError => line = LogClientError
       | LoopExhausted => line = LogGaveUp maxRetries
       end.
Proof.
  induction k as [|k IH]; intros i.
  - exists [], (LogGaveUp maxRetries). now cbn.
  - cbn [attemptsFrom].
    destruct (IH (S i)) as (pre & line & E & Hline).
    destruct (axiosPost (net i)) as [e|status].
    + cbn [fst snd]. rewrite E, !app_assoc.
      eexists _, line. split; [reflexivity|exact Hline].
    + destruct ((200 <=? status)%Z && (status <? 300)%Z) eqn:E2.
      * eexists _, _. split; [reflexivity|]. cbn [fst].
        exists status. split; [reflexivity|].
        apply andb_true_iff in E2 as [H1 H2].
        apply Z.leb_le in H1. apply Z.ltb_lt in H2. lia.
      * destruct ((400 <=? status)%Z && (status <? 500)%Z).
        -- cbn [fst snd].
           change [Log (LogWebhookFailed status); Log LogClientError]
             with ([Log (LogWebhookFailed status)] ++ [Log LogClientError]).
           rewrite app_assoc.
           eexists _, _. split; reflexivity.
        -- cbn [fst snd]. rewrite E, !app_assoc.
           eexists _, line. split; [reflexivity|exact Hline].
Qed.

End DeliveryMore.

Section DeliveryUntil.

Variable net : nat -> NetOutcome.
Variable url : jsstring.
Variable card : MessageCard.t.
Variable maxRetries : nat.

Local Abbreviation run := (attemptsFrom net url card maxRetries).

(** The requests made when attempt [a] is the first whose answer stops
    the loop. *)
Lemma run_sends_until (k : nat) :
  forall i a,
  i <= a < i + k ->
  replyClass (net a) = Success2xx \/ replyClass (net a) = ClientError4xx ->
  (forall b, i <= b < a ->
     replyClass (net b) = Retryable \/ replyClass (net b) = OtherStatus) ->
  sends (snd (run k i)) = seq i (S a - i).
Proof.
  induction k as [|k IH]; intros i a Ha Hstop Hbefore; [lia|].
  rewrite sends_of_effects.
  destruct (run_step net url card maxRetries k i) as [E _]. rewrite E.
  destruct (Nat.eq_dec a i) as [->|Hne].
  - replace (S i - i) with 1 by lia.
    destruct Hstop as [-> | ->]; reflexivity.
  - specialize (IH (S i) a ltac:(lia) Hstop
                  ltac:(intros b Hb; apply Hbefore; lia)).
    rewrite sends_of_effects in IH.
    replace (S a - i) with (S (S a - S i)) by lia.
    cbn [seq flat_map app].
    destruct (Hbefore i ltac:(lia)) as [-> | ->];
      rewrite flat_map_app, IH; unfold pause;
      try destruct (i <? maxRetries)%nat; reflexivity.
Qed.

End DeliveryUntil.

Lemma goesOn_class (o : NetOutcome) :
  goesOn o <-> replyClass o = Retryable \/ replyClass o = OtherStatus.
Proof.
  unfold goesOn. now rewrite replyClass_retryable, replyClass_other.
Qed.

(** When a delivery succeeds.  The outcome is Delivered exactly when,
    within the budget, some attempt is answered by a 2xx status and every
    attempt before it was answered neither by a 2xx nor by a 4xx; the
    requests made are then those up to that attempt.  When no attempt of
    the budget is answered by a 2xx or a 4xx, whatever the mix of server
    errors, transport failures and other statuses, all the requests are
    made and the outcome is Abandoned. *)
Theorem delivery_outcome (net : nat -> NetOutcome) (url : jsstring)
  (card : MessageCard.t) (maxRetries : nat) :
  let run := sendWebhookWithRetry net url card maxRetries in
  (outcome (fst run) = Delivered
   <-> exists a status,
         1 <= a <= maxRetries
         /\ net a = HttpResponse status /\ (200 <= status < 300)%Z
         /\ forall b, 1 <= b < a -> goesOn (net b))
  /\ (forall a status,
        1 <= a <= maxRetries ->
        net a = HttpResponse status -> (200 <= status < 300)%Z ->
        (forall b, 1 <= b < a -> goesOn (net b)) ->
        sends (snd run) = seq 1 a)
  /\ ((forall a, 1 <= a <= maxRetries -> goesOn (net a)) ->
      outcome (fst run) = Abandoned /\ sends (snd run) = seq 1 maxRetries).
Proof.
  cbv zeta. unfold sendWebhookWithRetry. split; [|split].
  - assert (Hout : forall e, outcome e = Delivered <-> e = ReturnedSent)
      by (intros []; cbn; split; congruence).
    rewrite Hout, run_sent. split.
    + intros (a & Ha & Hs & Hbefore).
      destruct (net a) as [status|why] eqn:Ea; [|discriminate].
      exists a, status. split; [lia|]. split; [exact Ea|].
      split; [now apply replyClass_success|].
      intros b Hb. apply goesOn_class. apply Hbefore. lia.
    + intros (a & status & Ha & Hnet & Hs & Hbefore).
      exists a. split; [lia|]. split.
      * rewrite Hnet. now apply replyClass_success.
      * intros b Hb. apply goesOn_class. apply Hbefore. lia.
  - intros a status Ha Hnet Hs Hbefore.
    rewrite (run_sends_until net url card maxRetries maxRetries 1 a).
    + f_equal. lia.
    + lia.
    + left. rewrite Hnet. now apply replyClass_success.
    + intros b Hb. apply goesOn_class. apply Hbefore. lia.
  - intros Hall.
    destruct (run_exhausts net url card maxRetries maxRetries 1) as [X E].
    { intros a Ha. apply goesOn_class. apply Hall. lia. }
    rewrite X. split; [reflexivity|].
    rewrite sends_of_effects, E.
    clear. generalize 1. induction maxRetries as [|m IH] at 2 3; intros i.
    + reflexivity.
    + cbn [seq flat_map app]. rewrite flat_map_app, IH.
      destruct (replyClass (net i)); unfold pause;
        try destruct (i <? maxRetries)%nat; reflexivity.
Qed.

(** The theorem at a timeout, a 503 and a 201. *)
Lemma delivery_outcome_witness :
  sends (snd (sendWebhookWithRetry
                (scripted [NoResponse Timeout; HttpResponse 503;
                           HttpResponse 201])
                Sample.url Sample.card 3))
  = seq 1 3.
Proof.
  apply (proj1 (proj2 (delivery_outcome
                         (scripted [NoResponse Timeout; HttpResponse 503;
                                    HttpResponse 201])
                         Sample.url Sample.card 3))
           3 201%Z).
  - lia.
  - reflexivity.
  - lia.
  - intros b Hb. assert (b = 1 \/ b = 2) as [-> | ->] by lia.
    + left. exact I.
    + left. cbn. lia.
Defined.

(** A delivery always says how it ended: the last event of its trace is
    the console line of its way out, the success line with the 2xx status
    received, the client error line, or the line that gives up after
    [maxRetries] attempts. *)
Theorem delivery_reports_its_end (net : nat -> NetOutcome) (url : jsstring)
  (card : MessageCard.t) (maxRetries : nat) :
  let run := sendWebhookWithRetry net url card maxRetries in
  exists line,
    lastLine (snd run) = Some line
    /\ match fst run with
       | ReturnedSent =>
           exists status, line = LogSent status /\ (200 <= status < 300)%Z
       | ReturnedClientError => line = LogClientError
       | LoopExhausted => line = LogGaveUp maxRetries
       end.
Proof.
  cbv zeta. unfold sendWebhookWithRetry.
  destruct (run_last_line net url card maxRetries maxRetries 1)
    as (pre & line & E & H).
  exists line. split; [|exact H].
  unfold lastLine. now rewrite E, last_last.
Qed.

Lemma sumZ_waitTime_bound (l : list nat) :
  (sumZ (map waitTime l) <= 5000 * Z.of_nat (List.length l))%Z.
Proof.
  induction l as [|a l IH]; cbn [map sumZ List.length]; [lia|].
  pose proof (waitTime_range a). lia.
Qed.

(** What a delivery costs at most.  It makes at most [maxRetries]
    requests, and at least one when the budget is not zero; all of them
    carry the same card to the same address; the waits add up to at most
    5000 ms for each attempt but the last, and to at most 3000 ms with the
    budget of three that [onEnd] uses. *)
Theorem delivery_is_bounded (net : nat -> NetOutcome) (url : jsstring)
  (card : MessageCard.t) (maxRetries : nat) :
  let run := sendWebhookWithRetry net url card maxRetries in
  Nat.min 1 maxRetries <= List.length (sends (snd run)) <= maxRetries
  /\ requests (snd run)
     = repeat (url, card) (List.length (sends (snd run)))
  /\ (0 <= sumZ (waits (snd run)) <= 5000 * Z.of_nat (maxRetries - 1))%Z
  /\ (maxRetries = 3 -> (sumZ (waits (snd run)) <= 3000)%Z).
Proof.
  cbv zeta. unfold sendWebhookWithRetry. split; [|split; [|split]].
  - destruct (run_count net url card maxRetries maxRetries 1)
      as (n & Hn & E).
    rewrite E, length_seq. exact Hn.
  - apply run_requests.
  - pose proof (run_waits_sum net url card maxRetries maxRetries 1) as H.
    pose proof (sumZ_waitTime_bound (seq 1 (maxRetries - 1))) as B.
    rewrite length_seq in B. lia.
  - intros ->.
    pose proof (run_waits_sum net url card 3 3 1) as H.
    assert (B : sumZ (map waitTime (seq 1 (3 - 1))) = 3000%Z) by reflexivity.
    rewrite B in H. lia.
Qed.

(** The budget of three attempts, as [onEnd] uses it. *)
Lemma delivery_bounds_3 (net : nat -> NetOutcome) (url : jsstring)
  (card : MessageCard.t) :
  exists n,
    1 <= n <= 3
    /\ sends (snd (sendWebhookWithRetry net url card 3)) = seq 1 n
    /\ requests (snd (sendWebhookWithRetry net url card 3))
       = repeat (url, card) n
    /\ (0 <= sumZ (waits (snd (sendWebhookWithRetry net url card 3)))
        <= 3000)%Z.
Proof.
  unfold sendWebhookWithRetry.
  destruct (run_count net url card 3 3 1) as (n & Hn & E).
  exists n. split; [cbn in Hn; lia|]. split; [exact E|]. split.
  - rewrite run_requests, E, length_seq. reflexivity.
  - pose proof (run_waits_sum net url card 3 3 1) as H.
    assert (B : sumZ (map waitTime (seq 1 (3 - 1))) = 3000%Z) by reflexivity.
    rewrite B in H. exact H.
Qed.

(** ** The run-end handler with an endpoint *)

Lemma record_startTime (events : list (TestCase.t * TestResult.t)) :
  forall r, startTime (record r events) = startTime r.
Proof.
  induction events as [|[test result] events IH]; intros r; [reflexivity|].
  cbn [record]. now rewrite IH.
Qed.

(** With an endpoint, [onEnd] after a run that began at clock reading
    [begin]: the recorded attempts are classified, without error; the
    card of the classified counts, with the duration since [begin], is
    sent to the endpoint between one and three times, the same card each
    time; the waits add up to at most 3000 ms; and the reporter ends in
    the classified state whatever the network answers: a notification
    that cannot be delivered changes nothing and raises nothing. *)
Theorem onEnd_sends_the_summary
  (env env' : Env) (name : jsstring) (begin : Z)
  (events : list (TestCase.t * TestResult.t))
  (now : Z) (timestamp : jsstring) (net : nat -> NetOutcome)
  (Hurl : Js.truthy (env (lit "TEAMS_WEBHOOK_URL")) = true) :
  let r := record (onBegin (newReporter env name) begin) events in
  let run := onEnd r env' now timestamp net in
  exists url r' n,
    env (lit "TEAMS_WEBHOOK_URL") = Some url
    /\ fst (processTestResults r) = Some r'
    /\ fst run = Some r'
    /\ 1 <= n <= 3
    /\ requests (snd run)
       = repeat
           (url,
            buildMessageCard r' env' (formatDuration (now - begin)) timestamp)
           n
    /\ sends (snd run) = seq 1 n
    /\ (0 <= sumZ (waits (snd run)) <= 3000)%Z
    /\ forall net', fst (onEnd r env' now timestamp net') = Some r'.
Proof.
  cbv zeta.
  set (r := record (onBegin (newReporter env name) begin) events).
  destruct (record_store events (onBegin (newReporter env name) begin))
    as (_ & _ & Hne & _ & Hw & _).
  cbv zeta in Hne. fold r in Hne, Hw.
  specialize (Hne (Forall_nil _)).
  cbn [onBegin newReporter webhookUrl] in Hw.
  destruct (processEntries_total (testAttempts r) Hne r) as (r' & E & _).
  destruct (processEntries_extend _ _ _ E) as (d & fs & ks & _ & _ & _ & _ & S).
  assert (Hr' : r' = extend r d fs ks) by (rewrite S in E; congruence).
  assert (Hstart : startTime r' = begin).
  { rewrite Hr'. cbn [extend startTime]. unfold r.
    now rewrite record_startTime. }
  destruct (env (lit "TEAMS_WEBHOOK_URL")) as [[|c u]|] eqn:Eenv;
    try discriminate.
  assert (Hend : forall net0,
            onEnd r env' now timestamp net0
            = (Some r',
               [Log (LogProcessing (JsMap.size (testAttempts r)))]
               ++ snd (sendWebhookWithRetry net0 (c :: u)
                         (buildMessageCard r' env'
                            (formatDuration (now - begin)) timestamp)
                         3))).
  { intros net0. unfold onEnd. rewrite Hw.
    cbn [processTestResults fst snd]. rewrite E, Hstart. reflexivity. }
  destruct (delivery_bounds_3 net (c :: u)
              (buildMessageCard r' env' (formatDuration (now - begin))
                 timestamp))
    as (n & Hn & Hs & Hr & Hwait).
  exists (c :: u), r', n. rewrite Hend. cbn [fst snd].
  rewrite requests_app, sends_app, waits_app. cbn [requests sends waits app].
  repeat split; auto; try lia.
  intros net'. now rewrite Hend.
Qed.

(** The theorem at the end-to-end scenario, begun at 0 and ended at
    65 000 ms, with a network that never answers. *)
Lemma onEnd_sends_the_summary_witness :
  exists url r' n,
    Sample.env (lit "TEAMS_WEBHOOK_URL") = Some url
    /\ fst (processTestResults
              (record (onBegin (newReporter Sample.env (lit "edcs")) 0)
                 Sample.scenario))
       = Some r'
    /\ fst (onEnd
              (record (onBegin (newReporter Sample.env (lit "edcs")) 0)
                 Sample.scenario)
              Sample.env 65000 (lit "now") (scripted []))
       = Some r'
    /\ 1 <= n <= 3
    /\ requests
         (snd (onEnd
                 (record (onBegin (newReporter Sample.env (lit "edcs")) 0)
                    Sample.scenario)
                 Sample.env 65000 (lit "now") (scripted [])))
       = repeat
           (url,
            buildMessageCard r' Sample.env (formatDuration (65000 - 0))
              (lit "now"))
           n
    /\ sends
         (snd (onEnd
                 (record (onBegin (newReporter Sample.env (lit "edcs")) 0)
                    Sample.scenario)
                 Sample.env 65000 (lit "now") (scripted [])))
       = seq 1 n
    /\ (0 <= sumZ
               (waits
                  (snd (onEnd
                          (record
                             (onBegin (newReporter Sample.env (lit "edcs")) 0)
                             Sample.scenario)
                          Sample.env 65000 (lit "now") (scripted []))))
        <= 3000)%Z
    /\ forall net',
         fst (onEnd
                (record (onBegin (newReporter Sample.env (lit "edcs")) 0)
                   Sample.scenario)
                Sample.env 65000 (lit "now") net')
         = Some r'.
Proof.
  apply (onEnd_sends_the_summary Sample.env Sample.env (lit "edcs") 0
           Sample.scenario 65000 (lit "now") (scripted [])).
  reflexivity.
Defined.

(** ** Classification of a whole store *)

Lemma countUnder_addCounts (k : Classification) (a b : Counts) :
  countUnder k (addCounts a b) = countUnder k a + countUnder k b.
Proof. destruct k; reflexivity. Qed.

(** One entry, in terms of its class. *)
Lemma processEntry_class (kd : jsstring * Attempts.t) :
  nonEmptyEntry kd ->
  exists d,
    (forall k, countUnder k d
               = if sameClass k (classOf (Attempts.results (snd kd)))
                 then 1 else 0)
    /\ forall s,
         processEntry s (snd kd)
         = Some (extend s d (entryFailed kd) (entryFlaky kd)).
Proof.
  unfold nonEmptyEntry, entryFailed, entryFlaky, classOf, processEntry.
  intros Hne.
  destruct (nth_error (Attempts.results (snd kd))
              (List.length (Attempts.results (snd kd)) - 1))
    as [final|] eqn:N.
  - destruct (TestResult.status (Attempt.result final)).
    + destruct (existsb isFailure (Attempts.results (snd kd))
                && (1 <? List.length (Attempts.results (snd kd)))).
      * exists (tally Flaky (mkCounts 0 0 0 0 0)).
        split; [intros []; reflexivity|]. intros s.
        change (incFlaky (testResults s)) with (tally Flaky (testResults s)).
        rewrite (withCounts_extend s Flaky).
        unfold pushFlaky, extend. cbn. now rewrite !app_nil_r.
      * exists (tally Passed (mkCounts 0 0 0 0 0)).
        split; [intros []; reflexivity|]. intros s.
        change (incPassed (testResults s)) with (tally Passed (testResults s)).
        now rewrite (withCounts_extend s Passed).
    + exists (tally Failed (mkCounts 0 0 0 0 0)).
      split; [intros []; reflexivity|]. intros s.
      rewrite captureFailedTest_detail.
      change (incFailed (testResults s)) with (tally Failed (testResults s)).
      rewrite (withCounts_extend s Failed).
      unfold pushFailed, extend. cbn. now rewrite !app_nil_r.
    + exists (tally TimedOut (mkCounts 0 0 0 0 0)).
      split; [intros []; reflexivity|]. intros s.
      rewrite captureFailedTest_detail.
      change (incTimedout (testResults s))
        with (tally TimedOut (testResults s)).
      rewrite (withCounts_extend s TimedOut).
      unfold pushFailed, extend. cbn. now rewrite !app_nil_r.
    + exists (tally Skipped (mkCounts 0 0 0 0 0)).
      split; [intros []; reflexivity|]. intros s.
      change (incSkipped (testResults s))
        with (tally Skipped (testResults s)).
      now rewrite (withCounts_extend s Skipped).
    + exists (mkCounts 0 0 0 0 0).
      split; [intros []; reflexivity|]. intros s.
      now rewrite extend_nothing.
  - apply nth_error_None in N.
    destruct (Attempts.results (snd kd)); [contradiction|cbn in N; lia].
Qed.

Lemma processEntries_class (entries : JsMap.t Attempts.t) :
  Forall nonEmptyEntry entries ->
  exists d,
    (forall k, countUnder k d = entriesUnder k entries)
    /\ forall s,
         processEntries s entries
         = Some (extend s d (flat_map entryFailed entries)
                   (flat_map entryFlaky entries)).
Proof.
  induction 1 as [|[id data] entries Hx Hrest IH].
  - exists (mkCounts 0 0 0 0 0). split; [intros []; reflexivity|].
    intros s. cbn. now rewrite extend_nothing.
  - destruct (processEntry_class (id, data) Hx) as (d1 & C1 & S1).
    destruct IH as (d2 & C2 & S2).
    exists (addCounts d1 d2). split.
    + intros k. rewrite countUnder_addCounts, C1, C2.
      unfold entriesUnder. cbn [filter].
      destruct (sameClass k (classOf (Attempts.results (snd (id, data)))));
        reflexivity.
    + intros s. cbn [processEntries flat_map]. cbn [snd] in S1.
      rewrite S1, S2. now rewrite extend_extend.
Qed.

(** The classifier as a function of the store.  When every entry holds
    an attempt, [processTestResults] succeeds; each of the five counts
    grows by the number of entries of its class; the failure records of
    the entries classified Failed or TimedOut, and the flaky records of
    those classified Flaky, are appended in the order of the entries; an
    entry whose last attempt was interrupted adds nothing; the store and
    the other fields stay as they were. *)
Theorem classification_of_a_store (r : Reporter)
  (Hne : Forall nonEmptyEntry (testAttempts r)) :
  exists r',
    fst (processTestResults r) = Some r'
    /\ (forall k,
          countUnder k (testResults r')
          = countUnder k (testResults r) + entriesUnder k (testAttempts r))
    /\ failedTests r' = failedTests r ++ flat_map entryFailed (testAttempts r)
    /\ flakyTests r' = flakyTests r ++ flat_map entryFlaky (testAttempts r)
    /\ testAttempts r' = testAttempts r
    /\ webhookUrl r' = webhookUrl r
    /\ projectName r' = projectName r
    /\ startTime r' = startTime r.
Proof.
  destruct (processEntries_class (testAttempts r) Hne) as (d & C & S).
  eexists. split; [cbn [processTestResults fst]; apply S|].
  cbn [extend testResults failedTests flakyTests testAttempts webhookUrl
       projectName startTime].
  repeat split. intros k. now rewrite countUnder_addCounts, C.
Qed.

(** The theorem at the store of the end-to-end scenario. *)
Lemma classification_of_a_store_witness :
  exists r',
    fst (processTestResults (record Sample.fresh Sample.scenario)) = Some r'
    /\ (forall k,
          countUnder k (testResults r')
          = countUnder k (testResults (record Sample.fresh Sample.scenario))
            + entriesUnder k
                (testAttempts (record Sample.fresh Sample.scenario)))
    /\ failedTests r'
       = failedTests (record Sample.fresh Sample.scenario)
         ++ flat_map entryFailed
              (testAttempts (record Sample.fresh Sample.scenario))
    /\ flakyTests r'
       = flakyTests (record Sample.fresh Sample.scenario)
         ++ flat_map entryFlaky
              (testAttempts (record Sample.fresh Sample.scenario))
    /\ testAttempts r' = testAttempts (record Sample.fresh Sample.scenario)
    /\ webhookUrl r' = webhookUrl (record Sample.fresh Sample.scenario)
    /\ projectName r' = projectName (record Sample.fresh Sample.scenario)
    /\ startTime r' = startTime (record Sample.fresh Sample.scenario).
Proof.
  apply (classification_of_a_store (record Sample.fresh Sample.scenario)).
  repeat constructor; discriminate.
Defined.

(** The overall status against the detail lists.  After the
    classification of a run the status is FAILED exactly when the list of
    failed tests is not empty, UNSTABLE exactly when that list is empty
    and the list of flaky tests is not, and PASSED exactly when both are
    empty.  In particular a run none of whose tests ends on a passed,
    failed, skipped or timed out attempt (all were interrupted) is
    reported as PASSED, with all counts at zero. *)
Theorem status_follows_the_detail_lists (env : Env) (name : jsstring)
  (events : list (TestCase.t * TestResult.t)) :
  exists r',
    fst (processTestResults (record (newReporter env name) events)) = Some r'
    /\ (OverallStatus.text (getOverallStatus r') = lit "FAILED"
        <-> failedTests r' <> [])
    /\ (OverallStatus.text (getOverallStatus r') = lit "UNSTABLE"
        <-> failedTests r' = [] /\ flakyTests r' <> [])
    /\ (OverallStatus.text (getOverallStatus r') = lit "PASSED"
        <-> failedTests r' = [] /\ flakyTests r' = [])
    /\ ((forall id, classified (lastStatus events id) = false) ->
        OverallStatus.text (getOverallStatus r') = lit "PASSED"
        /\ testResults r' = mkCounts 0 0 0 0 0).
Proof.
  destruct (run_total env name events) as (r' & E & T & _).
  exists r'. split; [exact E|].
  assert (Hlists : List.length (failedTests r')
                   = failed (testResults r') + timedout (testResults r')
                   /\ List.length (flakyTests r') = flaky (testResults r')).
  { cbn [processTestResults fst] in E.
    destruct (processEntries_extend _ _ _ E)
      as (d & fs & ks & _ & L & K & _ & S).
    rewrite S in E. injection E as <-.
    destruct (record_store events (newReporter env name))
      as (_ & _ & _ & _ & _ & Hc & Hf & Hk).
    unfold extend. cbn [failedTests flakyTests testResults].
    rewrite Hc, Hf, Hk. cbn [newReporter testResults failedTests flakyTests app].
    destruct d. cbn in *. auto. }
  destruct Hlists as [HF HK].
  assert (Hf0 : failedTests r' = []
                <-> failed (testResults r') + timedout (testResults r') = 0).
  { rewrite <- HF. destruct (failedTests r'); cbn; split;
      try discriminate; auto. }
  assert (Hk0 : flakyTests r' = [] <-> flaky (testResults r') = 0).
  { rewrite <- HK. destruct (flakyTests r'); cbn; split;
      try discriminate; auto. }
  unfold getOverallStatus.
  destruct (testResults r') as [p f s fl t] eqn:Ec.
  cbn [failed timedout flaky] in *.
  split; [|split; [|split]].
  - destruct f, t; cbn; rewrite ?Hf0; split; intros H;
      try reflexivity; try lia; try discriminate;
      try (exfalso; apply H; lia);
      destruct fl; discriminate.
  - destruct f, t; cbn; rewrite ?Hf0, ?Hk0; split; intros H;
      try lia; try discriminate;
      destruct fl; cbn in *; try discriminate; try lia;
      try reflexivity; split; lia.
  - destruct f, t; cbn; rewrite ?Hf0, ?Hk0; split; intros H;
      try lia; try discriminate;
      destruct fl; cbn in *; try discriminate; try lia;
      try reflexivity; split; lia.
  - intros Hnone.
    assert (Hz : total (mkCounts p f s fl t) = 0).
    { rewrite T.
      assert (Hnil : forall l : list jsstring,
                filter (fun id => classified (lastStatus events id)) l = []).
      { induction l as [|id l IH]; [reflexivity|].
        cbn [filter]. rewrite Hnone. exact IH. }
      now rewrite Hnil. }
    unfold total in Hz. cbn in Hz.
    assert (p = 0 /\ f = 0 /\ s = 0 /\ fl = 0 /\ t = 0) as (-> & -> & -> & -> & ->)
      by lia.
    split; reflexivity.
Qed.
